(** * The Enet coordinator: event decoding and the poll loop

    A shallow embedding of [custom_components/enet/__init__.py]:
    [EnetCoordinator.setup_event_listeners], [EnetCoordinator.handle_event]
    and [EnetCoordinator._async_update_data], with the Python values they
    inspect, the exceptions they can raise and the calls they make on their
    collaborators (logger, channels, listeners, event bus). *)

From Stdlib Require Import ZArith String List.
From Stdlib Require Import Floats.SpecFloat.
From stdpp Require Import gmap strings list fin_maps.

Open Scope string_scope.
Open Scope list_scope.

(** ** Python values

    The hub client hands decoded JSON to the coordinator, typed
    [Dict[str, Any]] in the source.  A [string] stands for a sequence of
    characters; the keys of a [PDict] are pairwise distinct, as in a Python
    dict, and [dict_lookup] returns the binding of a key. *)

#[warnings="-register-all"]
Inductive pyval : Type :=
| PNone
| PBool (b : bool)
| PInt (z : Z)
| PFloat (f : spec_float)
| PStr (s : string)
| PList (l : list pyval)
| PDict (d : list (string * pyval)).

(** Exceptions, all of them subclasses of Python's [Exception]. *)
Inductive exn : Type :=
| KeyError (key : pyval)
| TypeError
| IndexError
| OtherException (name : string).

Inductive result (A : Type) : Type :=
| Ok (a : A)
| Raise (e : exn).

Arguments Ok {A} a.
Arguments Raise {A} e.

Module Py.

Fixpoint dict_lookup (k : string) (d : list (string * pyval)) : option pyval :=
  match d with
  | [] => None
  | (k', v) :: d' => if String.eqb k k' then Some v else dict_lookup k d'
  end.

(** [o[k]] for a string key [k]. *)
Definition getitem (o : pyval) (k : string) : result pyval :=
  match o with
  | PDict d =>
      match dict_lookup k d with
      | Some v => Ok v
      | None => Raise (KeyError (PStr k))
      end
  | _ => Raise TypeError
  end.

(** [o[i]] for a literal index [i >= 0]. *)
Definition getitem_idx (o : pyval) (i : nat) : result pyval :=
  match o with
  | PList l =>
      match nth_error l i with
      | Some v => Ok v
      | None => Raise IndexError
      end
  | PStr s =>
      match String.get i s with
      | Some c => Ok (PStr (String c EmptyString))
      | None => Raise IndexError
      end
  | PDict _ => Raise (KeyError (PInt (Z.of_nat i)))
  | _ => Raise TypeError
  end.

(** [len(o)]. *)
Definition len (o : pyval) : result nat :=
  match o with
  | PList l => Ok (List.length l)
  | PDict d => Ok (List.length d)
  | PStr s => Ok (String.length s)
  | _ => Raise TypeError
  end.

Fixpoint chars (s : string) : list pyval :=
  match s with
  | EmptyString => []
  | String c s' => PStr (String c EmptyString) :: chars s'
  end.

(** The items that [for x in o] visits. *)
Definition iter (o : pyval) : result (list pyval) :=
  match o with
  | PList l => Ok l
  | PDict d => Ok (List.map (fun kv => PStr (fst kv)) d)
  | PStr s => Ok (chars s)
  | _ => Raise TypeError
  end.

(** [o == s] for a string literal [s]; never raises. *)
Definition eq_str (o : pyval) (s : string) : bool :=
  match o with
  | PStr s' => String.eqb s' s
  | _ => false
  end.

Definition float_zero : spec_float := S754_zero false.
Definition float_one : spec_float := S754_finite false 4503599627370496 (-52).

(** [o > 0]. *)
Definition gt_zero (o : pyval) : result bool :=
  match o with
  | PInt z => Ok (0 <? z)%Z
  | PBool b => Ok b
  | PFloat f => Ok (SFltb float_zero f)
  | _ => Raise TypeError
  end.

(** [o + 1], the value that [o += 1] binds. *)
Definition add_one (o : pyval) : result pyval :=
  match o with
  | PInt z => Ok (PInt (z + 1))
  | PBool b => Ok (PInt (Z.b2z b + 1))
  | PFloat f => Ok (PFloat (SFadd 53 1024 f float_one))
  | _ => Raise TypeError
  end.

(** Truth value of [o], as tested by [if o:]. *)
Definition truthy (o : pyval) : bool :=
  match o with
  | PNone => false
  | PBool b => b
  | PInt z => negb (z =? 0)%Z
  | PFloat f =>
      match f with
      | S754_zero _ => false
      | _ => true
      end
  | PStr s => negb (String.eqb s "")
  | PList l => negb (Nat.eqb (List.length l) 0)
  | PDict d => negb (Nat.eqb (List.length d) 0)
  end.

End Py.

(** ** Constants of the module *)

Definition EVENT_TYPE_OUTPUT_DEVICE_FUNCTION_CALLED : string := "outputDeviceFunctionCalled".
Definition EVENT_TYPE_INITIAL_PRESS : string := "initial_press".
Definition EVENT_TYPE_SHORT_RELEASE : string := "short_release".
Definition VALUE_TYPE_ROCKER_STATE : string := "VT_ROCKER_STATE".
Definition VALUE_TYPE_ROCKER_SWITCH_TIME : string := "VT_ROCKER_SWITCH_TIME".
Definition EVENT_ENET : string := "enet_event".

(** ** Channels and devices *)

(** Modelled from the spec: the channel classes of [aioenet], which are not
    among the sources.  A channel is an actuator or a sensor (the two
    stateful variants [handle_event] tests with [isinstance]) or anything
    else, an event channel; it is a class instance, hence true in a boolean
    context, and [ch_id] is its identity as an object. *)
Inductive ChannelKind : Type :=
| ActuatorChannel
| SensorChannel
| EventChannel.

(** Modelled from the spec: what a channel's back-reference [device] exposes
    to [handle_event], [device.hass_device_entry.id] and [device.uid]. *)
Record DeviceRef : Type := {
  hass_device_entry_id : string;
  uid : string
}.

Record Channel : Type := {
  ch_id : nat;
  ch_kind : ChannelKind;
  device : DeviceRef
}.

(** [isinstance(device, ActuatorChannel) or isinstance(device, SensorChannel)] *)
Definition is_stateful (c : Channel) : bool :=
  match ch_kind c with
  | ActuatorChannel | SensorChannel => true
  | EventChannel => false
  end.

(** Modelled from the spec: a device of [hub.devices] as
    [setup_event_listeners] uses it.  [get_function_uids_for_event] is the
    mapping the call returns, [register_events] the outcome of awaiting the
    subscription call. *)
Record Device : Type := {
  dev_ref : DeviceRef;
  get_function_uids_for_event : gmap string Channel;
  register_events : result unit
}.

(** [d.get(k)] on a dict whose keys are strings: any other hashable key is
    absent, and a list or a dict is unhashable. *)
Definition dict_get (d : gmap string Channel) (k : pyval) : result (option Channel) :=
  match k with
  | PStr s => Ok (d !! s)
  | PList _ | PDict _ => Raise TypeError
  | _ => Ok None
  end.

(** ** Calls on collaborators *)

Record bus_data : Type := {
  bd_device_id : string;
  bd_unique_id : string;
  bd_type : string;
  bd_subtype : pyval
}.

Inductive effect : Type :=
| LogWarning (fmt : string) (arg : pyval)
| LogException (fmt : string) (event : pyval) (e : exn)
| UpdateValues (ch : Channel) (function_uid values : pyval)
| AsyncUpdateListeners
| BusAsyncFire (event_type : string) (data : bus_data)
| RegisterEvents (d : DeviceRef).

(** The discrete events among a sequence of calls, in order. *)
Fixpoint bus_events (t : list effect) : list bus_data :=
  match t with
  | [] => []
  | BusAsyncFire _ b :: t' => b :: bus_events t'
  | _ :: t' => bus_events t'
  end.

(** ** The coordinator *)

(** What [hub.get_events()] does when awaited: it returns a batch or raises. *)
Inductive hub_reply : Type :=
| Events (event : pyval)
| GetEventsRaises (e : exn).

(** How a run of [_async_update_data] stands once the replies it was given
    are used up: still in the loop, awaiting [get_events], or left by an
    exception. *)
Inductive loop_status : Type :=
| Polling
| UpdateFailed (cause : exn)
| Propagated (e : exn).

(** The registry of the coordinator and the cached state of every channel
    object, by identity. *)
Record state (cache : Type) : Type := {
  function_uid_map : gmap string Channel;
  heap : nat -> cache
}.

Arguments function_uid_map {cache} s.
Arguments heap {cache} s.

Section Coordinator.

Context {cache : Type}.

(** [update_values] of the stateful channels belongs to [aioenet]; it
    is a parameter here: from the channel's cached state and the two
    arguments it gives the new cached state, and returns or raises. *)
Variable update_values : cache -> pyval -> pyval -> cache * result unit.

(** Computations that read and write the state, make calls on
    collaborators, and return or raise.  Calls made before an exception
    stay made. *)
Definition M (A : Type) : Type := state cache -> state cache * list effect * result A.

Definition ret {A} (a : A) : M A := fun st => (st, [], Ok a).

Definition bind {A B} (m : M A) (k : A -> M B) : M B := fun st =>
  match m st with
  | (st1, t1, Ok a) => let '(st2, t2, r) := k a st1 in (st2, t1 ++ t2, r)
  | (st1, t1, Raise e) => (st1, t1, Raise e)
  end.

Definition lift {A} (r : result A) : M A := fun st => (st, [], r).

Definition emit (e : effect) : M unit := fun st => (st, [e], Ok tt).

Local Notation "x <- m ;; k" := (bind m (fun x => k))
  (at level 100, m at next level, right associativity).
Local Notation "m ;; k" := (bind m (fun _ => k))
  (at level 100, right associativity).

(** [__init__]: the registry starts empty. *)
Definition init (h : nat -> cache) : state cache :=
  {| function_uid_map := ∅; heap := h |}.

(** [self.function_uid_map.update(func_uids)] *)
Definition function_uid_map_update (func_uids : gmap string Channel) : M unit := fun st =>
  ({| function_uid_map := func_uids ∪ function_uid_map st; heap := heap st |}, [], Ok tt).

Fixpoint setup_event_listeners (devices : list Device) : M unit :=
  match devices with
  | [] => ret tt
  | device :: rest =>
      let func_uids := get_function_uids_for_event device in
      function_uid_map_update func_uids ;;
      emit (RegisterEvents (dev_ref device)) ;;
      lift (register_events device) ;;
      setup_event_listeners rest
  end.

(** [self.function_uid_map.get(function_uid)] *)
Definition function_uid_map_get (function_uid : pyval) : M (option Channel) := fun st =>
  (st, [], dict_get (function_uid_map st) function_uid).

(** [device.update_values(function_uid, values)] *)
Definition call_update_values (ch : Channel) (function_uid values : pyval) : M unit := fun st =>
  let '(c, r) := update_values (heap st (ch_id ch)) function_uid values in
  ({| function_uid_map := function_uid_map st;
      heap := fun i => if Nat.eqb i (ch_id ch) then c else heap st i |},
   [UpdateValues ch function_uid values], r).

(** The body of the [for] loop of [handle_event]; [continue] is the
    return of the body. *)
Definition handle_one (event : pyval) : M unit :=
  kind <- lift (Py.getitem event "event") ;;
  if Py.eq_str kind EVENT_TYPE_OUTPUT_DEVICE_FUNCTION_CALLED then
    data <- lift (Py.getitem event "eventData") ;;
    function_uid <- lift (Py.getitem data "deviceFunctionUID") ;;
    found <- function_uid_map_get function_uid ;;
    match found with
    | None => emit (LogWarning "Function %s does not map to device" function_uid)
    | Some device_ =>
        values <- lift (Py.getitem data "values") ;;
        if is_stateful device_ then
          call_update_values device_ function_uid values ;;
          emit AsyncUpdateListeners
        else
          subtype <- lift (Py.getitem data "channelNumber") ;;
          n <- lift (Py.len values) ;;
          if negb (Nat.eqb n 2) then emit (LogWarning "Expected 2 values: %s" event)
          else
            v0 <- lift (Py.getitem_idx values 0) ;;
            t0 <- lift (Py.getitem v0 "valueTypeID") ;;
            subtype <-
              (if Py.eq_str t0 VALUE_TYPE_ROCKER_STATE then
                 v0' <- lift (Py.getitem_idx values 0) ;;
                 x0 <- lift (Py.getitem v0' "value") ;;
                 if Py.eq_str x0 "DOWN_BUTTON" then lift (Py.add_one subtype)
                 else ret subtype
               else ret subtype) ;;
            v1 <- lift (Py.getitem_idx values 1) ;;
            t1 <- lift (Py.getitem v1 "valueTypeID") ;;
            event_type <-
              (if Py.eq_str t1 VALUE_TYPE_ROCKER_SWITCH_TIME then
                 v1' <- lift (Py.getitem_idx values 1) ;;
                 x1 <- lift (Py.getitem v1' "value") ;;
                 released <- lift (Py.gt_zero x1) ;;
                 if released : bool then ret EVENT_TYPE_SHORT_RELEASE
                 else ret EVENT_TYPE_INITIAL_PRESS
               else ret EVENT_TYPE_INITIAL_PRESS) ;;
            emit (BusAsyncFire EVENT_ENET
                    {| bd_device_id := hass_device_entry_id (device device_);
                       bd_unique_id := uid (device device_);
                       bd_type := event_type;
                       bd_subtype := subtype |})
    end
  else ret tt.

(** [for event in ...: <body>] over the items of the batch. *)
Fixpoint handle_events (events : list pyval) : M unit :=
  match events with
  | [] => ret tt
  | event :: rest => handle_one event ;; handle_events rest
  end.

Definition handle_event (event_data : pyval) : M unit :=
  events <- lift (Py.getitem event_data "events") ;;
  items <- lift (Py.iter events) ;;
  handle_events items.

(** [_async_update_data], run against the replies [get_events] gives one
    after the other.  [while True] has no exit of its own: the run stays
    [Polling] unless an exception leaves it. *)
Fixpoint _async_update_data (replies : list hub_reply) (st : state cache)
  : state cache * list effect * loop_status :=
  match replies with
  | [] => (st, [], Polling)
  | GetEventsRaises e :: _ => (st, [], Propagated e)
  | Events event :: rest =>
      if Py.truthy event then
        match handle_event event st with
        | (st1, t1, Ok _) =>
            let '(st2, t2, s) := _async_update_data rest st1 in (st2, t1 ++ t2, s)
        | (st1, t1, Raise e) =>
            (st1, t1 ++ [LogException "Failed to handle event: %s (%s)" event e],
             UpdateFailed e)
        end
      else _async_update_data rest st
  end.

End Coordinator.

(** ** A small installation, for running the definitions *)

(** Modelled from the spec: [update_values] of a stateful channel, which
    "overwrites its cached state"; the cache holds the arguments of the last
    call, if there was one. *)
Definition overwrite_values (c : option (pyval * pyval)) (function_uid values : pyval)
  : option (pyval * pyval) * result unit :=
  (Some (function_uid, values), Ok tt).

Definition wall_switch : DeviceRef :=
  {| hass_device_entry_id := "entry-7"; uid := "dev-switch" |}.
Definition ceiling_lamp : DeviceRef :=
  {| hass_device_entry_id := "entry-9"; uid := "dev-lamp" |}.

Definition rocker : Channel :=
  {| ch_id := 1; ch_kind := EventChannel; device := wall_switch |}.
Definition lamp : Channel :=
  {| ch_id := 2; ch_kind := ActuatorChannel; device := ceiling_lamp |}.

Definition switch_device : Device :=
  {| dev_ref := wall_switch;
     get_function_uids_for_event := {[ "fn-rocker" := rocker ]};
     register_events := Ok tt |}.
Definition lamp_device : Device :=
  {| dev_ref := ceiling_lamp;
     get_function_uids_for_event := {[ "fn-lamp" := lamp ]};
     register_events := Ok tt |}.

Definition home : state (option (pyval * pyval)) :=
  {| function_uid_map := {[ "fn-rocker" := rocker ]} ∪ {[ "fn-lamp" := lamp ]};
     heap := fun _ => None |}.

Definition value_entry (value_type_id : string) (value : pyval) : pyval :=
  PDict [("valueTypeID", PStr value_type_id); ("value", value)].

(** A raw event of the shape [{event, eventData: {deviceFunctionUID, values,
    channelNumber}}]. *)
Definition raw_event (kind : string) (function_uid values channel_number : pyval) : pyval :=
  PDict [("event", PStr kind);
         ("eventData", PDict [("deviceFunctionUID", function_uid);
                              ("values", values);
                              ("channelNumber", channel_number)])].

Definition function_called (function_uid : string) (values : list pyval) (channel_number : Z) : pyval :=
  raw_event EVENT_TYPE_OUTPUT_DEVICE_FUNCTION_CALLED (PStr function_uid) (PList values)
    (PInt channel_number).

Definition batch (events : list pyval) : pyval := PDict [("events", PList events)].


(** The rocker pressed down and released up on channel 3, with the value
    types the module compares against, [VALUE_TYPE_ROCKER_STATE] and
    [VALUE_TYPE_ROCKER_SWITCH_TIME]. *)
Definition press_down : pyval :=
  function_called "fn-rocker"
    [value_entry "VT_ROCKER_STATE" (PStr "DOWN_BUTTON");
     value_entry "VT_ROCKER_SWITCH_TIME" (PInt 0)] 3.
Definition release_up : pyval :=
  function_called "fn-rocker"
    [value_entry "VT_ROCKER_STATE" (PStr "UP_BUTTON");
     value_entry "VT_ROCKER_SWITCH_TIME" (PInt 550)] 3.

(** The same two events with value types spelled "rocker state" and
    "rocker switch time". *)
Definition press_down_spelled_out : pyval :=
  function_called "fn-rocker"
    [value_entry "rocker state" (PStr "DOWN_BUTTON");
     value_entry "rocker switch time" (PInt 0)] 3.
Definition release_up_spelled_out : pyval :=
  function_called "fn-rocker"
    [value_entry "rocker state" (PStr "UP_BUTTON");
     value_entry "rocker switch time" (PInt 550)] 3.

(** A release whose switch time is JSON [null]: [None > 0] raises. *)
Definition release_without_time : pyval :=
  function_called "fn-rocker"
    [value_entry "VT_ROCKER_STATE" (PStr "UP_BUTTON");
     value_entry "VT_ROCKER_SWITCH_TIME" PNone] 3.

(** One value, three values; a function UID no device declared; a value
    for the lamp. *)
Definition one_value : pyval :=
  function_called "fn-rocker" [value_entry "VT_ROCKER_STATE" (PStr "UP_BUTTON")] 3.
Definition three_values : pyval :=
  function_called "fn-rocker"
    [value_entry "VT_ROCKER_STATE" (PStr "UP_BUTTON");
     value_entry "VT_ROCKER_SWITCH_TIME" (PInt 0);
     value_entry "VT_ROCKER_SWITCH_TIME" (PInt 0)] 3.
Definition unknown_function : pyval :=
  function_called "fn-gone" [value_entry "VT_SWITCH" (PBool true)] 1.
Definition lamp_on : pyval :=
  function_called "fn-lamp" [value_entry "VT_SWITCH" (PBool true)] 1.

(** A second channel and a device that declares it under the function UID
    the wall switch already uses. *)
Definition rocker_b : Channel :=
  {| ch_id := 3; ch_kind := EventChannel; device := ceiling_lamp |}.
Definition rewired_device : Device :=
  {| dev_ref := ceiling_lamp;
     get_function_uids_for_event := {[ "fn-rocker" := rocker_b ]};
     register_events := Ok tt |}.

(** What the rocker of the wall switch fires on the bus. *)
Definition fired (event_type : string) (subtype : Z) : effect :=
  BusAsyncFire "enet_event"
    {| bd_device_id := "entry-7"; bd_unique_id := "dev-switch";
       bd_type := event_type; bd_subtype := PInt subtype |}.

(** The first steps of the loop body on an event of the "device function
    called" kind: [event["event"]] is the expected string, and
    [event["eventData"]] is [data], whose [deviceFunctionUID] is
    [function_uid]. *)
Definition function_called_event (event data function_uid : pyval) : Prop :=
  Py.getitem event "event" = Ok (PStr EVENT_TYPE_OUTPUT_DEVICE_FUNCTION_CALLED) /\
  Py.getitem event "eventData" = Ok data /\
  Py.getitem data "deviceFunctionUID" = Ok function_uid.

(** A value entry that is a rocker-state entry with value "DOWN_BUTTON". *)
Definition rocker_down (entry : pyval) : bool :=
  match Py.getitem entry "valueTypeID", Py.getitem entry "value" with
  | Ok t, Ok x => Py.eq_str t VALUE_TYPE_ROCKER_STATE && Py.eq_str x "DOWN_BUTTON"
  | _, _ => false
  end.

(** ** Counting calls *)

Definition is_update_values (e : effect) : bool :=
  match e with
  | UpdateValues _ _ _ => true
  | _ => false
  end.

Definition is_update_listeners (e : effect) : bool :=
  match e with
  | AsyncUpdateListeners => true
  | _ => false
  end.


(** The calls of [update_values] and of [async_update_listeners] among a
    sequence of calls. *)
Definition updates (t : list effect) : nat := List.length (List.filter is_update_values t).
Definition notifications (t : list effect) : nat :=
  List.length (List.filter is_update_listeners t).

(** A reply of the hub that the loop does not skip: an exception, or a
    batch that is true in a boolean context. *)
Definition consumed (reply : hub_reply) : bool :=
  match reply with
  | Events event => Py.truthy event
  | GetEventsRaises _ => true
  end.

(** The object [i] is a stateful channel that the registry [m] maps some
    function UID to. *)
Definition registered_stateful (m : gmap string Channel) (i : nat) : Prop :=
  exists u ch, m !! u = Some ch /\ is_stateful ch = true /\ ch_id ch = i.

(** ** Setting up and unloading a config entry

    [async_setup_entry] and [async_unload_entry], with what they do on the
    host ([hass.data], the config entries, the event loop) and on the hub
    client.  Debug logging is left out, as in the coordinator. *)

Inductive Platform : Type :=
| LIGHT
| SCENE
| COVER
| SENSOR.

Definition PLATFORMS : list Platform := [LIGHT; SCENE; COVER; SENSOR].

(** A config entry: [entry.entry_id] and [entry.data]. *)
Record ConfigEntry : Type := {
  entry_id : string;
  entry_data : pyval
}.

(** Modelled from the spec: the hub client of [aioenet], which is not among
    the sources, as [async_setup_entry] uses it: the three arguments it is
    built from and the two attributes the function assigns, [coordinator]
    and [devices] ([None] here until [hub.devices] is assigned). *)
Record EnetClient (cache : Type) : Type := {
  url : pyval;
  username : pyval;
  password : pyval;
  coordinator : state cache;
  devices : option (list Device)
}.

Arguments url {cache} e.
Arguments username {cache} e.
Arguments password {cache} e.
Arguments coordinator {cache} e.
Arguments devices {cache} e.

(** The host: [hass.data.get(DOMAIN)], a dict from entry ids to hub objects
    when it is there, and the hub objects by identity, with the identity the
    next new object gets. *)
Record HomeAssistant (cache : Type) : Type := {
  domain_data : option (gmap string nat);
  objects : nat -> EnetClient cache;
  next_object : nat
}.

Arguments domain_data {cache} h.
Arguments objects {cache} h.
Arguments next_object {cache} h.

(** What the awaited collaborators do during one call of
    [async_setup_entry]: each returns or raises. *)
Record setup_replies : Type := {
  simple_login : result unit;
  get_devices : result (list Device);
  async_forward_entry_setups : result unit;
  async_setup_devices : result unit
}.

Inductive host_call : Type :=
| LogError (fmt : string) (e : exn)
| SimpleLogin (hub : nat)
| GetDevices (hub : nat)
| AsyncForwardEntrySetups (entry : string) (platforms : list Platform)
| OfCoordinator (hub : nat) (e : effect)
| AsyncSetupDevices (hub : nat)
| CreateTaskAsyncRefresh (hub : nat)
| AsyncUnloadPlatforms (entry : string) (platforms : list Platform).

Section Host.

Context {cache : Type}.

(** [DOMAIN] of [const.py], which is not among the sources. *)
Variable DOMAIN : string.

Definition HM (A : Type) : Type :=
  HomeAssistant cache -> HomeAssistant cache * list host_call * result A.

Definition hret {A} (a : A) : HM A := fun hs => (hs, [], Ok a).

Definition hbind {A B} (m : HM A) (k : A -> HM B) : HM B := fun hs =>
  match m hs with
  | (hs1, t1, Ok a) => let '(hs2, t2, r) := k a hs1 in (hs2, t1 ++ t2, r)
  | (hs1, t1, Raise e) => (hs1, t1, Raise e)
  end.

Definition hlift {A} (r : result A) : HM A := fun hs => (hs, [], r).

Definition hemit (c : host_call) : HM unit := fun hs => (hs, [c], Ok tt).

(** A call on a collaborator: made, and then it returns or raises. *)
Definition call {A} (c : host_call) (reply : result A) : HM A := fun hs => (hs, [c], reply).

(** The same inside [try: ... except Exception as e:], handing the outcome
    to the code after it. *)
Definition try_call {A} (c : host_call) (reply : result A) : HM (result A) := fun hs =>
  (hs, [c], Ok reply).

Local Notation "x <- m ;; k" := (hbind m (fun x => k))
  (at level 100, m at next level, right associativity).
Local Notation "m ;; k" := (hbind m (fun _ => k))
  (at level 100, right associativity).

(** [hass.data.setdefault(DOMAIN, {})] *)
Definition setdefault_domain : HM unit := fun hs =>
  ({| domain_data := Some (default ∅ (domain_data hs));
      objects := objects hs;
      next_object := next_object hs |}, [], Ok tt).

(** [hub = EnetClient(url, username, password)] followed by
    [hub.coordinator = EnetCoordinator(hass, hub, entry)]: a new object,
    whose coordinator starts with the empty registry. *)
Definition new_hub (url username password : pyval) (h : nat -> cache) : HM nat := fun hs =>
  let hub := next_object hs in
  ({| domain_data := domain_data hs;
      objects := fun i =>
        if Nat.eqb i hub
        then {| url := url; username := username; password := password;
                coordinator := init h; devices := None |}
        else objects hs i;
      next_object := S hub |}, [], Ok hub).

(** [hass.data[DOMAIN][entry_id] = hub] *)
Definition store_hub (entry_id : string) (hub : nat) : HM unit := fun hs =>
  match domain_data hs with
  | Some d =>
      ({| domain_data := Some (<[entry_id := hub]> d);
          objects := objects hs;
          next_object := next_object hs |}, [], Ok tt)
  | None => (hs, [], Raise (KeyError (PStr DOMAIN)))
  end.

(** [hass.data[DOMAIN].pop(entry_id)] *)
Definition pop_hub (entry_id : string) : HM nat := fun hs =>
  match domain_data hs with
  | Some d =>
      match d !! entry_id with
      | Some hub =>
          ({| domain_data := Some (delete entry_id d);
              objects := objects hs;
              next_object := next_object hs |}, [], Ok hub)
      | None => (hs, [], Raise (KeyError (PStr entry_id)))
      end
  | None => (hs, [], Raise (KeyError (PStr DOMAIN)))
  end.

(** [hub.devices = devices] *)
Definition set_devices (hub : nat) (devs : list Device) : HM unit := fun hs =>
  ({| domain_data := domain_data hs;
      objects := fun i =>
        if Nat.eqb i hub
        then {| url := url (objects hs hub); username := username (objects hs hub);
                password := password (objects hs hub);
                coordinator := coordinator (objects hs hub);
                devices := Some devs |}
        else objects hs i;
      next_object := next_object hs |}, [], Ok tt).

(** [await hub.coordinator.setup_event_listeners()]: the method runs over
    [self.hub.devices] on the state of the hub's coordinator. *)
Definition coordinator_setup_event_listeners (hub : nat) : HM unit := fun hs =>
  match devices (objects hs hub) with
  | Some devs =>
      let '(st, t, r) := setup_event_listeners devs (coordinator (objects hs hub)) in
      ({| domain_data := domain_data hs;
          objects := fun i =>
            if Nat.eqb i hub
            then {| url := url (objects hs hub); username := username (objects hs hub);
                    password := password (objects hs hub);
                    coordinator := st;
                    devices := Some devs |}
            else objects hs i;
          next_object := next_object hs |},
       List.map (OfCoordinator hub) t, r)
  | None => (hs, [], Raise (OtherException "AttributeError"))
  end.

Definition async_setup_entry (replies : setup_replies) (h : nat -> cache)
    (entry : ConfigEntry) : HM bool :=
  setdefault_domain ;;
  url <- hlift (Py.getitem (entry_data entry) "url") ;;
  username <- hlift (Py.getitem (entry_data entry) "username") ;;
  password <- hlift (Py.getitem (entry_data entry) "password") ;;
  hub <- new_hub url username password h ;;
  logged_in <- try_call (SimpleLogin hub) (simple_login replies) ;;
  match logged_in with
  | Raise e =>
      hemit (LogError "Failed to login to Enet Smart Home: %s" e) ;;
      hret false
  | Ok _ =>
      store_hub (entry_id entry) hub ;;
      got <- try_call (GetDevices hub) (get_devices replies) ;;
      match got with
      | Raise e =>
          hemit (LogError "Failed to get devices from Enet Smart Home: %s" e) ;;
          hret false
      | Ok devs =>
          set_devices hub devs ;;
          call (AsyncForwardEntrySetups (entry_id entry) PLATFORMS)
            (async_forward_entry_setups replies) ;;
          coordinator_setup_event_listeners hub ;;
          call (AsyncSetupDevices hub) (async_setup_devices replies) ;;
          hemit (CreateTaskAsyncRefresh hub) ;;
          hret true
      end
  end.

(** [async_unload_entry]; [unload_platforms] is what awaiting
    [async_unload_platforms] does. *)
Definition async_unload_entry (unload_platforms : result bool) (entry : ConfigEntry)
  : HM bool :=
  unload_ok <- call (AsyncUnloadPlatforms (entry_id entry) PLATFORMS) unload_platforms ;;
  (if unload_ok : bool then (_ <- pop_hub (entry_id entry) ;; hret tt) else hret tt) ;;
  hret unload_ok.

End Host.

(** The rooms of the small installation as the hub reports them, and a
    host that has not seen the integration yet. *)
Definition home_entry : ConfigEntry :=
  {| entry_id := "entry-home";
     entry_data := PDict [("url", PStr "http://enet.local");
                          ("username", PStr "admin");
                          ("password", PStr "secret")] |}.

Definition all_is_well : setup_replies :=
  {| simple_login := Ok tt;
     get_devices := Ok [switch_device; lamp_device];
     async_forward_entry_setups := Ok tt;
     async_setup_devices := Ok tt |}.

Definition fresh_host : HomeAssistant (option (pyval * pyval)) :=
  {| domain_data := None;
     objects := fun _ =>
       {| url := PNone; username := PNone; password := PNone;
          coordinator := init (fun _ => None); devices := None |};
     next_object := 0 |}.

(** More events and collaborators for the installation: an event of
    another kind, a press whose channel number came as a string, a press
    whose second value is not a switch time and has no value, a device whose
    subscription fails, and a hub that refuses the login or the devices. *)
Definition device_added : pyval := PDict [("event", PStr "deviceAdded")].

Definition press_down_on_string_channel : pyval :=
  raw_event EVENT_TYPE_OUTPUT_DEVICE_FUNCTION_CALLED (PStr "fn-rocker")
    (PList [value_entry "VT_ROCKER_STATE" (PStr "DOWN_BUTTON");
            value_entry "VT_ROCKER_SWITCH_TIME" (PInt 0)])
    (PStr "3").

Definition press_without_switch_time : pyval :=
  function_called "fn-rocker"
    [value_entry "VT_ROCKER_STATE" (PStr "UP_BUTTON");
     PDict [("valueTypeID", PStr "VT_SCENE")]] 3.

Definition unreachable_device : Device :=
  {| dev_ref := ceiling_lamp;
     get_function_uids_for_event := {[ "fn-blind" := rocker_b ]};
     register_events := Raise (OtherException "ClientError") |}.

Definition login_refused : setup_replies :=
  {| simple_login := Raise (OtherException "ClientError");
     get_devices := Ok [switch_device; lamp_device];
     async_forward_entry_setups := Ok tt;
     async_setup_devices := Ok tt |}.

Definition devices_unavailable : setup_replies :=
  {| simple_login := Ok tt;
     get_devices := Raise (OtherException "ClientError");
     async_forward_entry_setups := Ok tt;
     async_setup_devices := Ok tt |}.

(** * Properties *)

Section Properties.

Context {cache : Type}.
Variable update_values : cache -> pyval -> pyval -> cache * result unit.

Local Abbreviation M := (@M cache).
Local Abbreviation handle_one := (handle_one update_values).
Local Abbreviation handle_events := (handle_events update_values).
Local Abbreviation handle_event := (handle_event update_values).
Local Abbreviation call_update_values := (call_update_values update_values).
Local Abbreviation poll := (_async_update_data update_values).

Implicit Types (st : state cache) (t : list effect) (event data : pyval).

(** ** Equations of the monad *)

Lemma bind_lift {A B} (r : result A) (k : A -> M B) st :
  bind (lift r) k st =
  match r with
  | Ok a => k a st
  | Raise e => (st, [], Raise e)
  end.
Proof.
  unfold bind, lift. destruct r as [a|e]; [|reflexivity].
  destruct (k a st) as [[st' t'] r']. reflexivity.
Qed.

Lemma bind_ret {A B} (a : A) (k : A -> M B) st : bind (ret a) k st = k a st.
Proof. apply (bind_lift (Ok a)). Qed.

Lemma bind_emit {B} (e : effect) (k : unit -> M B) st :
  bind (emit e) k st = let '(st', t, r) := k tt st in (st', e :: t, r).
Proof. reflexivity. Qed.

Lemma bind_get {B} (function_uid : pyval) (k : option Channel -> M B) st :
  bind (function_uid_map_get function_uid) k st =
  match dict_get (function_uid_map st) function_uid with
  | Ok found => k found st
  | Raise e => (st, [], Raise e)
  end.
Proof.
  unfold bind, function_uid_map_get.
  destruct (dict_get (function_uid_map st) function_uid) as [a|e]; [|reflexivity].
  destruct (k a st) as [[st' t'] r']. reflexivity.
Qed.

Lemma handle_events_cons event rest st :
  handle_events (event :: rest) st =
  match handle_one event st with
  | (st1, t1, Ok _) => let '(st2, t2, r) := handle_events rest st1 in (st2, t1 ++ t2, r)
  | (st1, t1, Raise e) => (st1, t1, Raise e)
  end.
Proof. reflexivity. Qed.

(** Runs the loop body of an event of the "device function called" kind
    up to the registry lookup. *)
Ltac enter_body Hkind Hdata Huid :=
  unfold handle_one;
  rewrite bind_lift, Hkind; cbn [Py.eq_str];
  rewrite String.eqb_refl, bind_lift, Hdata, bind_lift, Huid, bind_get.

(** The loop body up to the registry lookup. *)
Lemma handle_one_lookup event data function_uid st :
  function_called_event event data function_uid ->
  handle_one event st =
  match dict_get (function_uid_map st) function_uid with
  | Raise e => (st, [], Raise e)
  | Ok None =>
      (st, [LogWarning "Function %s does not map to device" function_uid], Ok tt)
  | Ok (Some ch) =>
      match Py.getitem data "values" with
      | Raise e => (st, [], Raise e)
      | Ok values =>
          if is_stateful ch then
            bind (call_update_values ch function_uid values)
              (fun _ => emit AsyncUpdateListeners) st
          else handle_one event st
      end
  end.
Proof.
  intros (Hkind & Hdata & Huid).
  destruct (dict_get (function_uid_map st) function_uid) as [[ch|]|e] eqn:Hget.
  - destruct (Py.getitem data "values") as [values|e] eqn:Hvalues.
    + destruct (is_stateful ch) eqn:Hch; [|reflexivity].
      enter_body Hkind Hdata Huid. rewrite Hget.
      rewrite bind_lift, Hvalues, Hch. reflexivity.
    + enter_body Hkind Hdata Huid. rewrite Hget.
      rewrite bind_lift, Hvalues. reflexivity.
  - enter_body Hkind Hdata Huid. rewrite Hget.
    reflexivity.
  - enter_body Hkind Hdata Huid. rewrite Hget.
    reflexivity.
Qed.

(** The button branch, up to the check of the number of values. *)
Lemma handle_one_button event data function_uid ch values subtype st :
  function_called_event event data function_uid ->
  dict_get (function_uid_map st) function_uid = Ok (Some ch) ->
  is_stateful ch = false ->
  Py.getitem data "values" = Ok values ->
  Py.getitem data "channelNumber" = Ok subtype ->
  handle_one event st =
  match Py.len values with
  | Raise e => (st, [], Raise e)
  | Ok n =>
      if negb (Nat.eqb n 2)
      then (st, [LogWarning "Expected 2 values: %s" event], Ok tt)
      else handle_one event st
  end.
Proof.
  intros (Hkind & Hdata & Huid) Hget Hch Hvalues Hsub.
  destruct (Py.len values) as [n|e] eqn:Hlen.
  - destruct (negb (Nat.eqb n 2)) eqn:Hn; [|reflexivity].
    enter_body Hkind Hdata Huid. rewrite Hget.
    rewrite bind_lift, Hvalues, Hch, bind_lift, Hsub, bind_lift, Hlen, Hn.
    reflexivity.
  - enter_body Hkind Hdata Huid. rewrite Hget.
    rewrite bind_lift, Hvalues, Hch, bind_lift, Hsub, bind_lift, Hlen.
    reflexivity.
Qed.

(** Runs the second decoding step and the call on the bus. *)
Ltac decode_rest v1 :=
  rewrite !bind_lift; cbn [Py.getitem_idx nth_error];
  destruct (Py.getitem v1 "valueTypeID") as [?t1|?e]; [|reflexivity];
  unfold bind at 1;
  destruct (Py.eq_str _ VALUE_TYPE_ROCKER_SWITCH_TIME);
  [ rewrite !bind_lift; cbn [Py.getitem_idx nth_error];
    destruct (Py.getitem v1 "value") as [?x1|?e]; [|reflexivity];
    destruct (Py.gt_zero _) as [[|]|?e]; reflexivity
  | reflexivity ].

(** The button branch on a list of two values: the two decoding steps,
    then the call on the bus. *)
Lemma handle_one_decode event data function_uid ch v0 v1 subtype st :
  function_called_event event data function_uid ->
  dict_get (function_uid_map st) function_uid = Ok (Some ch) ->
  is_stateful ch = false ->
  Py.getitem data "values" = Ok (PList [v0; v1]) ->
  Py.getitem data "channelNumber" = Ok subtype ->
  handle_one event st =
  match Py.getitem v0 "valueTypeID" with
  | Raise e => (st, [], Raise e)
  | Ok t0 =>
    match (if Py.eq_str t0 VALUE_TYPE_ROCKER_STATE then
             match Py.getitem v0 "value" with
             | Raise e => Raise e
             | Ok x0 => if Py.eq_str x0 "DOWN_BUTTON" then Py.add_one subtype else Ok subtype
             end
           else Ok subtype) with
    | Raise e => (st, [], Raise e)
    | Ok subtype' =>
      match Py.getitem v1 "valueTypeID" with
      | Raise e => (st, [], Raise e)
      | Ok t1 =>
        match (if Py.eq_str t1 VALUE_TYPE_ROCKER_SWITCH_TIME then
                 match Py.getitem v1 "value" with
                 | Raise e => Raise e
                 | Ok x1 =>
                     match Py.gt_zero x1 with
                     | Raise e => Raise e
                     | Ok released =>
                         Ok (if released then EVENT_TYPE_SHORT_RELEASE
                             else EVENT_TYPE_INITIAL_PRESS)
                     end
                 end
               else Ok EVENT_TYPE_INITIAL_PRESS) with
        | Raise e => (st, [], Raise e)
        | Ok event_type =>
            (st,
             [BusAsyncFire EVENT_ENET
                {| bd_device_id := hass_device_entry_id (device ch);
                   bd_unique_id := uid (device ch);
                   bd_type := event_type;
                   bd_subtype := subtype' |}],
             Ok tt)
        end
      end
    end
  end.
Proof.
  intros (Hkind & Hdata & Huid) Hget Hch Hvalues Hsub.
  enter_body Hkind Hdata Huid. rewrite Hget.
  rewrite bind_lift, Hvalues, Hch, bind_lift, Hsub, bind_lift.
  cbn [Py.len List.length Nat.eqb negb Py.getitem_idx nth_error].
  rewrite bind_lift. cbn [Py.getitem_idx nth_error].
  rewrite bind_lift.
  destruct (Py.getitem v0 "valueTypeID") as [t0|e]; [|reflexivity].
  unfold bind at 1.
  destruct (Py.eq_str t0 VALUE_TYPE_ROCKER_STATE).
  - rewrite !bind_lift. cbn [Py.getitem_idx nth_error].
    destruct (Py.getitem v0 "value") as [x0|e]; [|reflexivity].
    destruct (Py.eq_str x0 "DOWN_BUTTON").
    + unfold lift at 1. destruct (Py.add_one subtype) as [s'|e]; [|reflexivity].
      decode_rest v1.
    + unfold ret at 1. decode_rest v1.
  - unfold ret at 1. decode_rest v1.
Qed.

Lemma bind_assoc {A B C} (m : M A) (k1 : A -> M B) (k2 : B -> M C) st :
  bind (bind m k1) k2 st = bind m (fun a => bind (k1 a) k2) st.
Proof.
  unfold bind.
  destruct (m st) as [[st1 t1] [a|e]]; [|reflexivity].
  destruct (k1 a st1) as [[st2 t2] [b|e]]; [|reflexivity].
  destruct (k2 b st2) as [[st3 t3] r].
  rewrite app_assoc. reflexivity.
Qed.

Lemma bind_call {B} ch function_uid values (k : unit -> M B) st :
  bind (call_update_values ch function_uid values) k st =
  (let '(c, r) := update_values (heap st (ch_id ch)) function_uid values in
   let st1 := {| function_uid_map := function_uid_map st;
                 heap := fun i => if Nat.eqb i (ch_id ch) then c else heap st i |} in
   match r with
   | Ok a => let '(st2, t2, r2) := k a st1 in (st2, UpdateValues ch function_uid values :: t2, r2)
   | Raise e => (st1, [UpdateValues ch function_uid values], Raise e)
   end).
Proof.
  unfold bind, call_update_values.
  destruct (update_values (heap st (ch_id ch)) function_uid values) as [c [a|e]];
    reflexivity.
Qed.

(** Runs a computation of the loop body to its leaves, by cases on
    everything it inspects. *)
Ltac run_body :=
  repeat first
    [ rewrite bind_assoc
    | rewrite bind_lift
    | rewrite bind_ret
    | rewrite bind_get
    | rewrite bind_call
    | match goal with
      | |- context [match ?x with _ => _ end] => destruct x eqn:?
      | |- context [if ?x then _ else _] => destruct x eqn:?
      end ].

(** The four ways the loop body can end: without any call, with one
    warning, with a call of [update_values], or with one event on the bus.
    Only the third touches the state. *)
Lemma handle_one_cases event st :
  (exists r, handle_one event st = (st, [], r)) \/
  (exists fmt arg, handle_one event st = (st, [LogWarning fmt arg], Ok tt)) \/
  (exists ch function_uid values c r,
      is_stateful ch = true /\
      handle_one event st =
      ({| function_uid_map := function_uid_map st;
          heap := fun i => if Nat.eqb i (ch_id ch) then c else heap st i |},
       UpdateValues ch function_uid values ::
         match r with
         | Ok _ => [AsyncUpdateListeners]
         | Raise _ => []
         end,
       r)) \/
  (exists b, handle_one event st = (st, [BusAsyncFire EVENT_ENET b], Ok tt)).
Proof.
  unfold handle_one. run_body.
  all: try (left; eexists; reflexivity).
  all: try (right; left; do 2 eexists; reflexivity).
  all: try (right; right; right; eexists; reflexivity).
  all: right; right; left.
  all: unfold emit; cbv beta iota zeta.
  all: repeat match goal with u : unit |- _ => destruct u end.
  all: match goal with
       | H : update_values (heap _ (ch_id ?ch)) ?u ?v = (?c, ?r) |- _ =>
           exists ch, u, v, c, r; split; [assumption | reflexivity]
       end.
Qed.

(** ** Anomalies *)

(** C5: an event of the "device function called" kind whose
    [deviceFunctionUID] is absent from the registry is answered by one
    warning and nothing else: the body returns normally, the registry and
    every channel's cached state are as before, nothing is fired on the bus,
    and the rest of the batch is handled from that same state. *)
Theorem unmapped_function_uid_is_skipped event data function_uid st :
  function_called_event event data function_uid ->
  dict_get (function_uid_map st) function_uid = Ok None ->
  handle_one event st =
    (st, [LogWarning "Function %s does not map to device" function_uid], Ok tt) /\
  forall rest,
    handle_events (event :: rest) st =
    let '(st', t, r) := handle_events rest st in
    (st', LogWarning "Function %s does not map to device" function_uid :: t, r).
Proof.
  intros Hev Hget.
  assert (Hone : handle_one event st =
    (st, [LogWarning "Function %s does not map to device" function_uid], Ok tt)).
  { rewrite (handle_one_lookup _ _ _ _ Hev), Hget. reflexivity. }
  split; [exact Hone|].
  intros rest. rewrite handle_events_cons, Hone.
  destruct (handle_events rest st) as [[st' t] r]. reflexivity.
Qed.

(** C4: an event of the "device function called" kind addressed to a
    registered event channel whose [values] is a list of length other than 2
    is answered by one warning and nothing else: nothing is fired on the
    bus, the registry and every channel's cached state are as before, and
    the rest of the batch is handled from that same state. *)
Theorem malformed_button_payload_is_skipped event data function_uid ch values subtype st :
  function_called_event event data function_uid ->
  dict_get (function_uid_map st) function_uid = Ok (Some ch) ->
  ch_kind ch = EventChannel ->
  Py.getitem data "values" = Ok (PList values) ->
  Py.getitem data "channelNumber" = Ok subtype ->
  List.length values <> 2 ->
  handle_one event st = (st, [LogWarning "Expected 2 values: %s" event], Ok tt) /\
  forall rest,
    handle_events (event :: rest) st =
    let '(st', t, r) := handle_events rest st in
    (st', LogWarning "Expected 2 values: %s" event :: t, r).
Proof.
  intros Hev Hget Hch Hvalues Hsub Hlen.
  assert (Hone : handle_one event st =
    (st, [LogWarning "Expected 2 values: %s" event], Ok tt)).
  { assert (Hst : is_stateful ch = false) by (unfold is_stateful; rewrite Hch; reflexivity).
    rewrite (handle_one_button _ _ _ _ _ _ _ Hev Hget Hst Hvalues Hsub).
    cbn [Py.len]. apply Nat.eqb_neq in Hlen. rewrite Hlen. reflexivity. }
  split; [exact Hone|].
  intros rest. rewrite handle_events_cons, Hone.
  destruct (handle_events rest st) as [[st' t] r]. reflexivity.
Qed.

(** ** Stateful channels *)

(** C10: an event of the "device function called" kind addressed to a
    registered actuator or sensor channel calls [update_values] on that
    channel with the event's [deviceFunctionUID] and [values], whatever
    [values] is and however many entries it has; the listeners are notified
    when the call returns, and no warning is logged. *)
Theorem stateful_channel_receives_any_values event data function_uid ch values st :
  function_called_event event data function_uid ->
  dict_get (function_uid_map st) function_uid = Ok (Some ch) ->
  is_stateful ch = true ->
  Py.getitem data "values" = Ok values ->
  handle_one event st =
  (let '(c, r) := update_values (heap st (ch_id ch)) function_uid values in
   ({| function_uid_map := function_uid_map st;
       heap := fun i => if Nat.eqb i (ch_id ch) then c else heap st i |},
    UpdateValues ch function_uid values ::
      match r with
      | Ok _ => [AsyncUpdateListeners]
      | Raise _ => []
      end,
    r)).
Proof.
  intros Hev Hget Hch Hvalues.
  rewrite (handle_one_lookup _ _ _ _ Hev), Hget, Hvalues, Hch.
  unfold bind, call_update_values.
  destruct (update_values (heap st (ch_id ch)) function_uid values) as [c [[]|e]];
    reflexivity.
Qed.

(** ** Button events *)

Lemma bus_events_app t1 t2 : bus_events (t1 ++ t2) = bus_events t1 ++ bus_events t2.
Proof.
  induction t1 as [|e t1 IH]; [reflexivity|].
  destruct e; cbn [app bus_events]; rewrite IH; reflexivity.
Qed.

(** The loop body never writes the registry. *)
Lemma handle_one_registry event st :
  function_uid_map (handle_one event st).1.1 = function_uid_map st.
Proof.
  destruct (handle_one_cases event st)
    as [(r & ->)|[(fmt & arg & ->)|[(ch & u & v & c & r & _ & ->)|(b & ->)]]];
    reflexivity.
Qed.

(** What the loop body fires on the bus depends on the state through the
    registry only. *)
Lemma handle_one_bus_events event st1 st2 :
  function_uid_map st1 = function_uid_map st2 ->
  bus_events (handle_one event st1).1.2 = bus_events (handle_one event st2).1.2.
Proof.
  intros Hreg. unfold handle_one.
  repeat first
    [ rewrite Hreg
    | rewrite bind_assoc
    | rewrite bind_lift
    | rewrite bind_ret
    | rewrite bind_get
    | rewrite bind_call
    | match goal with
      | |- context [match ?x with _ => _ end] => destruct x eqn:?
      | |- context [if ?x then _ else _] => destruct x eqn:?
      end ].
  all: reflexivity.
Qed.

(** C8: when handling an event fires a discrete event on the bus, the
    state after is the state before (the registry and the cached state of
    every channel), and that one call on the bus is all that was done: no
    call of [update_values], no notification of the listeners. *)
Theorem button_event_leaves_state_alone event st st' t r name b :
  handle_one event st = (st', t, r) ->
  In (BusAsyncFire name b) t ->
  st' = st /\ t = [BusAsyncFire name b] /\ r = Ok tt.
Proof.
  intros Hrun Hin.
  destruct (handle_one_cases event st)
    as [(r0 & H)|[(fmt & arg & H)|[(ch & u & v & c & r0 & _ & H)|(b0 & H)]]];
    rewrite H in Hrun; injection Hrun as <- <- <-.
  - destruct Hin.
  - destruct Hin as [Hin|[]]. discriminate Hin.
  - destruct Hin as [Hin|Hin]; [discriminate Hin|].
    destruct r0; [destruct Hin as [Hin|[]]; discriminate Hin | destruct Hin].
  - destruct Hin as [Hin|[]]. injection Hin as <- <-. auto.
Qed.

(** C2, amended: on the values
    [[{valueTypeID: "VT_ROCKER_STATE", value: "DOWN_BUTTON"},
      {valueTypeID: "VT_ROCKER_SWITCH_TIME", value: 0}]] with
    [channelNumber = 3], addressed to a registered event channel, the loop
    body fires exactly one event on the bus, of subtype 4 and type
    "initial_press". *)
Theorem rocker_down_press_decoding event data function_uid ch st :
  function_called_event event data function_uid ->
  dict_get (function_uid_map st) function_uid = Ok (Some ch) ->
  ch_kind ch = EventChannel ->
  Py.getitem data "values" =
    Ok (PList [value_entry "VT_ROCKER_STATE" (PStr "DOWN_BUTTON");
               value_entry "VT_ROCKER_SWITCH_TIME" (PInt 0)]) ->
  Py.getitem data "channelNumber" = Ok (PInt 3) ->
  handle_one event st =
  (st,
   [BusAsyncFire "enet_event"
      {| bd_device_id := hass_device_entry_id (device ch);
         bd_unique_id := uid (device ch);
         bd_type := "initial_press";
         bd_subtype := PInt 4 |}],
   Ok tt).
Proof.
  intros Hev Hget Hch Hvalues Hsub.
  assert (Hst : is_stateful ch = false) by (unfold is_stateful; rewrite Hch; reflexivity).
  rewrite (handle_one_decode _ _ _ _ _ _ _ _ Hev Hget Hst Hvalues Hsub).
  reflexivity.
Qed.

(** C3, amended: on the values
    [[{valueTypeID: "VT_ROCKER_STATE", value: "UP_BUTTON"},
      {valueTypeID: "VT_ROCKER_SWITCH_TIME", value: 550}]] with
    [channelNumber = 3], addressed to a registered event channel, the loop
    body fires exactly one event on the bus, of subtype 3 and type
    "short_release". *)
Theorem rocker_up_release_decoding event data function_uid ch st :
  function_called_event event data function_uid ->
  dict_get (function_uid_map st) function_uid = Ok (Some ch) ->
  ch_kind ch = EventChannel ->
  Py.getitem data "values" =
    Ok (PList [value_entry "VT_ROCKER_STATE" (PStr "UP_BUTTON");
               value_entry "VT_ROCKER_SWITCH_TIME" (PInt 550)]) ->
  Py.getitem data "channelNumber" = Ok (PInt 3) ->
  handle_one event st =
  (st,
   [BusAsyncFire "enet_event"
      {| bd_device_id := hass_device_entry_id (device ch);
         bd_unique_id := uid (device ch);
         bd_type := "short_release";
         bd_subtype := PInt 3 |}],
   Ok tt).
Proof.
  intros Hev Hget Hch Hvalues Hsub.
  assert (Hst : is_stateful ch = false) by (unfold is_stateful; rewrite Hch; reflexivity).
  rewrite (handle_one_decode _ _ _ _ _ _ _ _ Hev Hget Hst Hvalues Hsub).
  reflexivity.
Qed.

(** On an event channel, two values of which the first is not a
    rocker-state entry with value "DOWN_BUTTON": the body leaves the state
    alone and either raises before any call or fires one event whose
    subtype is the channel number as it came. *)
Lemma decode_without_rocker_down event data function_uid ch v0 v1 subtype st st' t r :
  function_called_event event data function_uid ->
  dict_get (function_uid_map st) function_uid = Ok (Some ch) ->
  is_stateful ch = false ->
  Py.getitem data "values" = Ok (PList [v0; v1]) ->
  Py.getitem data "channelNumber" = Ok subtype ->
  rocker_down v0 = false ->
  handle_one event st = (st', t, r) ->
  st' = st /\
  match r with
  | Ok _ =>
      exists event_type,
        t = [BusAsyncFire EVENT_ENET
               {| bd_device_id := hass_device_entry_id (device ch);
                  bd_unique_id := uid (device ch);
                  bd_type := event_type;
                  bd_subtype := subtype |}]
  | Raise _ => t = []
  end.
Proof.
  intros Hev Hget Hst Hvalues Hsub Hdown.
  rewrite (handle_one_decode _ _ _ _ _ _ _ _ Hev Hget Hst Hvalues Hsub).
  unfold rocker_down in Hdown.
  destruct (Py.getitem v0 "valueTypeID") as [t0|e0];
    [|intros [= <- <- <-]; auto].
  destruct (Py.eq_str t0 VALUE_TYPE_ROCKER_STATE).
  - destruct (Py.getitem v0 "value") as [x0|e0];
      [|intros [= <- <- <-]; auto].
    cbn [andb] in Hdown. rewrite Hdown.
    destruct (Py.getitem v1 "valueTypeID") as [t1|e1];
      [|intros [= <- <- <-]; auto].
    destruct (Py.eq_str t1 VALUE_TYPE_ROCKER_SWITCH_TIME);
      [destruct (Py.getitem v1 "value") as [x1|e1];
         [destruct (Py.gt_zero x1) as [released|e1]|]|];
      intros [= <- <- <-]; eauto.
  - destruct (Py.getitem v1 "valueTypeID") as [t1|e1];
      [|intros [= <- <- <-]; auto].
    destruct (Py.eq_str t1 VALUE_TYPE_ROCKER_SWITCH_TIME);
      [destruct (Py.getitem v1 "value") as [x1|e1];
         [destruct (Py.gt_zero x1) as [released|e1]|]|];
      intros [= <- <- <-]; eauto.
Qed.

(** C9: for an event of the "device function called" kind whose [values]
    is a list of two entries, the first of them not a rocker-state entry
    with value "DOWN_BUTTON", any event fired on the bus has the event's
    [channelNumber] as its subtype, unchanged; and when the event is
    addressed to a registered event channel and the body returns, exactly
    one such event is fired. *)
Theorem subtype_is_channel_number event data function_uid v0 v1 subtype st st' t r :
  function_called_event event data function_uid ->
  Py.getitem data "values" = Ok (PList [v0; v1]) ->
  Py.getitem data "channelNumber" = Ok subtype ->
  rocker_down v0 = false ->
  handle_one event st = (st', t, r) ->
  (forall name b, In (BusAsyncFire name b) t -> bd_subtype b = subtype) /\
  (forall ch,
      dict_get (function_uid_map st) function_uid = Ok (Some ch) ->
      ch_kind ch = EventChannel ->
      r = Ok tt ->
      exists event_type,
        t = [BusAsyncFire EVENT_ENET
               {| bd_device_id := hass_device_entry_id (device ch);
                  bd_unique_id := uid (device ch);
                  bd_type := event_type;
                  bd_subtype := subtype |}]).
Proof.
  intros Hev Hvalues Hsub Hdown Hrun. split.
  - intros name b Hin.
    pose proof Hrun as Hrun'.
    rewrite (handle_one_lookup _ _ _ _ Hev) in Hrun'.
    destruct (dict_get (function_uid_map st) function_uid) as [[ch|]|e] eqn:Hget.
    + rewrite Hvalues in Hrun'.
      destruct (is_stateful ch) eqn:Hst.
      * rewrite bind_call in Hrun'.
        destruct (update_values (heap st (ch_id ch)) function_uid (PList [v0; v1]))
          as [c [[]|e]]; injection Hrun' as <- <- <-.
        -- destruct Hin as [Hin|[Hin|[]]]; discriminate Hin.
        -- destruct Hin as [Hin|[]]; discriminate Hin.
      * destruct (decode_without_rocker_down _ _ _ _ _ _ _ _ _ _ _
                    Hev Hget Hst Hvalues Hsub Hdown Hrun) as [_ Ht].
        destruct r as [u|e].
        -- destruct Ht as (event_type & ->).
           destruct Hin as [Hin|[]]. injection Hin as <- <-. reflexivity.
        -- subst t. destruct Hin.
    + injection Hrun' as <- <- <-. destruct Hin as [Hin|[]]. discriminate Hin.
    + injection Hrun' as <- <- <-. destruct Hin.
  - intros ch Hget Hch ->.
    assert (Hst : is_stateful ch = false) by (unfold is_stateful; rewrite Hch; reflexivity).
    destruct (decode_without_rocker_down _ _ _ _ _ _ _ _ _ _ _
                Hev Hget Hst Hvalues Hsub Hdown Hrun) as [_ Ht].
    exact Ht.
Qed.

(** ** Order of the discrete events *)

Lemma handle_events_bus_events events : forall st0 st st' t r,
  function_uid_map st = function_uid_map st0 ->
  handle_events events st = (st', t, r) ->
  bus_events t `prefix_of`
    flat_map (fun event => bus_events (handle_one event st0).1.2) events /\
  (r = Ok tt ->
   bus_events t = flat_map (fun event => bus_events (handle_one event st0).1.2) events).
Proof.
  induction events as [|event rest IH]; intros st0 st st' t r Hreg Hrun.
  - injection Hrun as <- <- <-. split; [apply prefix_nil | reflexivity].
  - rewrite handle_events_cons in Hrun. cbn [flat_map].
    rewrite <- (handle_one_bus_events event st st0 Hreg).
    pose proof (handle_one_registry event st) as Hkeep.
    destruct (handle_one event st) as [[st1 t1] [u|e]]; cbn [fst snd] in *.
    + destruct (handle_events rest st1) as [[st2 t2] r2] eqn:Hrest.
      injection Hrun as <- <- <-.
      destruct (IH st0 st1 st2 t2 r2) as [Hpre Heq]; [congruence | exact Hrest |].
      rewrite bus_events_app. split.
      * apply prefix_app, Hpre.
      * intros Hr. rewrite (Heq Hr). reflexivity.
    + injection Hrun as <- <- <-. split.
      * apply prefix_app_r. reflexivity.
      * discriminate.
Qed.

(** C6: the discrete events that handling a batch fires on the bus are,
    in this order, what its first event fires, then what its second event
    fires, and so on through the batch: all of it when the batch is handled
    to its end, and a prefix of it when an exception ends the handling. *)
Theorem discrete_events_keep_batch_order event_data batch_events events st st' t r :
  Py.getitem event_data "events" = Ok batch_events ->
  Py.iter batch_events = Ok events ->
  handle_event event_data st = (st', t, r) ->
  (r = Ok tt ->
   bus_events t = flat_map (fun event => bus_events (handle_one event st).1.2) events) /\
  bus_events t `prefix_of`
    flat_map (fun event => bus_events (handle_one event st).1.2) events.
Proof.
  intros Hevents Hiter Hrun.
  unfold handle_event in Hrun.
  rewrite bind_lift, Hevents, bind_lift, Hiter in Hrun.
  destruct (handle_events_bus_events events st st st' t r eq_refl Hrun) as [Hpre Heq].
  split; assumption.
Qed.

(** ** The registry *)

Lemma setup_event_listeners_cons d rest st :
  setup_event_listeners (d :: rest) st =
  (let st1 := {| function_uid_map := get_function_uids_for_event d ∪ function_uid_map st;
                 heap := heap st |} in
   match register_events d with
   | Ok _ =>
       let '(st2, t2, r) := setup_event_listeners rest st1 in
       (st2, RegisterEvents (dev_ref d) :: t2, r)
   | Raise e => (st1, [RegisterEvents (dev_ref d)], Raise e)
   end).
Proof.
  cbn [setup_event_listeners]. unfold bind at 1, function_uid_map_update.
  rewrite bind_emit, bind_lift.
  destruct (register_events d) as [u|e]; [|reflexivity].
  destruct (setup_event_listeners rest _) as [[st2 t2] r]. reflexivity.
Qed.

(** Devices that do not declare [u] leave its entry as it was. *)
Lemma setup_event_listeners_undeclared (u : string) devices : forall st st' t r,
  (forall d, In d devices -> get_function_uids_for_event d !! u = None) ->
  setup_event_listeners devices st = (st', t, r) ->
  function_uid_map st' !! u = function_uid_map st !! u.
Proof.
  induction devices as [|d rest IH]; intros st st' t r Hnone Hrun.
  - injection Hrun as <- <- <-. reflexivity.
  - rewrite setup_event_listeners_cons in Hrun. cbv zeta in Hrun.
    destruct (register_events d) as [[]|e].
    + destruct (setup_event_listeners rest _) as [[st2 t2] r2] eqn:Hrest.
      injection Hrun as <- <- <-.
      rewrite (IH _ _ _ _ (fun d' H => Hnone d' (or_intror H)) Hrest).
      cbn [function_uid_map]. apply lookup_union_r, Hnone. left. reflexivity.
    + injection Hrun as <- <- <-.
      cbn [function_uid_map]. apply lookup_union_r, Hnone. left. reflexivity.
Qed.

Lemma setup_event_listeners_app pre : forall post st st' t,
  setup_event_listeners (pre ++ post) st = (st', t, Ok tt) ->
  exists st1 t1 t2,
    setup_event_listeners pre st = (st1, t1, Ok tt) /\
    setup_event_listeners post st1 = (st', t2, Ok tt).
Proof.
  induction pre as [|d pre IH]; intros post st st' t Hrun.
  - exists st, [], t. split; [reflexivity | exact Hrun].
  - cbn [app] in Hrun. rewrite setup_event_listeners_cons in *. cbv zeta in *.
    destruct (register_events d) as [[]|e]; [|discriminate Hrun].
    destruct (setup_event_listeners (pre ++ post) _) as [[st2 t2] r2] eqn:Hrest.
    injection Hrun as <- <- ->.
    destruct (IH _ _ _ _ Hrest) as (st1 & t1 & t3 & Hpre & Hpost).
    exists st1, (RegisterEvents (dev_ref d) :: t1), t3.
    rewrite Hpre. split; [reflexivity | exact Hpost].
Qed.

(** C7: once [setup_event_listeners] has run over the devices, starting
    from the empty registry, looking up a function UID gives the channel
    that the last device declaring it declared for it, and gives nothing for
    a function UID that no device declares. *)
Theorem registry_lookup_after_setup devices h st t :
  setup_event_listeners devices (init h) = (st, t, Ok tt) ->
  (forall pre d post u ch,
      devices = pre ++ d :: post ->
      get_function_uids_for_event d !! u = Some ch ->
      (forall d', In d' post -> get_function_uids_for_event d' !! u = None) ->
      dict_get (function_uid_map st) (PStr u) = Ok (Some ch)) /\
  (forall u,
      (forall d, In d devices -> get_function_uids_for_event d !! u = None) ->
      dict_get (function_uid_map st) (PStr u) = Ok None).
Proof.
  intros Hrun. split.
  - intros pre d post u ch -> Hdecl Hlast.
    destruct (setup_event_listeners_app _ _ _ _ _ Hrun) as (st1 & t1 & t2 & _ & Hpost).
    rewrite setup_event_listeners_cons in Hpost. cbv zeta in Hpost.
    destruct (register_events d) as [[]|e]; [|discriminate Hpost].
    destruct (setup_event_listeners post _) as [[st2 t3] r] eqn:Hrest.
    injection Hpost as <- _ ->.
    cbn [dict_get]. f_equal.
    rewrite (setup_event_listeners_undeclared u _ _ _ _ _ Hlast Hrest).
    cbn [function_uid_map]. apply lookup_union_Some_l, Hdecl.
  - intros u Hnone. cbn [dict_get]. f_equal.
    rewrite (setup_event_listeners_undeclared u _ _ _ _ _ Hnone Hrun).
    apply lookup_empty.
Qed.

(** ** The poll loop *)

Lemma poll_app pre : forall rest st st1 t1,
  poll pre st = (st1, t1, Polling) ->
  poll (pre ++ rest) st =
  let '(st2, t2, s) := poll rest st1 in (st2, t1 ++ t2, s).
Proof.
  induction pre as [|reply pre IH]; intros rest st st1 t1 Hpre.
  - injection Hpre as <- <-. cbn [app].
    destruct (poll rest st) as [[st2 t2] s]. reflexivity.
  - cbn [app]. cbn [_async_update_data] in *.
    destruct reply as [event|e]; [|discriminate Hpre].
    destruct (Py.truthy event); [|apply IH, Hpre].
    destruct (handle_event event st) as [[st0 t0] [u|e]]; [|discriminate Hpre].
    destruct (poll pre st0) as [[st3 t3] s3] eqn:Hrun.
    injection Hpre as <- <- ->.
    rewrite (IH rest _ _ _ Hrun).
    destruct (poll rest st3) as [[st2 t2] s]. rewrite app_assoc. reflexivity.
Qed.

(** C1, amended: when handling a batch raises an exception, the
    exception is caught and logged and the run of the poll loop ends there,
    raising [UpdateFailed] from it: with the calls made up to the exception
    standing, and whatever replies the hub would give next not consumed. *)
Theorem handler_exception_ends_the_run pre event post st st1 t1 st2 t2 e :
  poll pre st = (st1, t1, Polling) ->
  Py.truthy event = true ->
  handle_event event st1 = (st2, t2, Raise e) ->
  poll (pre ++ Events event :: post) st =
  (st2,
   t1 ++ t2 ++ [LogException "Failed to handle event: %s (%s)" event e],
   UpdateFailed e).
Proof.
  intros Hpre Htrue Hraise.
  rewrite (poll_app _ _ _ _ _ Hpre).
  cbn [_async_update_data]. rewrite Htrue, Hraise. reflexivity.
Qed.

(** ** What the loop body and the loops keep *)

(** As [handle_one_cases], with the registry entry behind the call of
    [update_values]. *)
Lemma handle_one_cases_registered event st :
  (exists r, handle_one event st = (st, [], r)) \/
  (exists fmt arg, handle_one event st = (st, [LogWarning fmt arg], Ok tt)) \/
  (exists ch u values c r,
      function_uid_map st !! u = Some ch /\
      is_stateful ch = true /\
      handle_one event st =
      ({| function_uid_map := function_uid_map st;
          heap := fun i => if Nat.eqb i (ch_id ch) then c else heap st i |},
       UpdateValues ch (PStr u) values ::
         match r with
         | Ok _ => [AsyncUpdateListeners]
         | Raise _ => []
         end,
       r)) \/
  (exists b, handle_one event st = (st, [BusAsyncFire EVENT_ENET b], Ok tt)).
Proof.
  unfold handle_one. run_body.
  all: try (left; eexists; reflexivity).
  all: try (right; left; do 2 eexists; reflexivity).
  all: try (right; right; right; eexists; reflexivity).
  all: right; right; left.
  all: unfold emit; cbv beta iota zeta.
  all: repeat match goal with u : unit |- _ => destruct u end.
  all: match goal with
       | G : dict_get _ ?k = Ok (Some _) |- _ => destruct k; try discriminate G
       end.
  all: match goal with
       | G : dict_get _ (PStr ?s) = Ok (Some ?ch),
         H : update_values (heap _ (ch_id ?ch)) _ ?v = (?c, ?r) |- _ =>
           exists ch, s, v, c, r; injection G as G; auto
       end.
Qed.

Lemma handle_events_app pre : forall post st,
  handle_events (pre ++ post) st =
  match handle_events pre st with
  | (st1, t1, Ok _) => let '(st2, t2, r) := handle_events post st1 in (st2, t1 ++ t2, r)
  | (st1, t1, Raise e) => (st1, t1, Raise e)
  end.
Proof.
  induction pre as [|event pre IH]; intros post st.
  - cbn [app handle_events]. unfold ret.
    destruct (handle_events post st) as [[st2 t2] r]. reflexivity.
  - cbn [app]. rewrite !handle_events_cons.
    destruct (handle_one event st) as [[st0 t0] [u|e]]; [|reflexivity].
    rewrite IH.
    destruct (handle_events pre st0) as [[st1 t1] [u1|e1]]; [|reflexivity].
    destruct (handle_events post st1) as [[st2 t2] r]. rewrite app_assoc. reflexivity.
Qed.

Lemma handle_events_registry events : forall st,
  function_uid_map (handle_events events st).1.1 = function_uid_map st.
Proof.
  induction events as [|event rest IH]; intros st; [reflexivity|].
  rewrite handle_events_cons.
  pose proof (handle_one_registry event st) as Hone.
  destruct (handle_one event st) as [[st1 t1] [u|e]]; cbn [fst] in *; [|exact Hone].
  specialize (IH st1).
  destruct (handle_events rest st1) as [[st2 t2] r]. cbn [fst] in *. congruence.
Qed.

Lemma handle_event_registry event_data st :
  function_uid_map (handle_event event_data st).1.1 = function_uid_map st.
Proof.
  unfold handle_event. rewrite bind_lift.
  destruct (Py.getitem event_data "events") as [events|e]; [|reflexivity].
  rewrite bind_lift. destruct (Py.iter events) as [items|e]; [|reflexivity].
  apply handle_events_registry.
Qed.

(** X1: a run of the poll loop never writes the registry, whatever the
    hub replies and however the run ends. *)
Theorem poll_keeps_registry replies : forall st,
  function_uid_map (_async_update_data update_values replies st).1.1 = function_uid_map st.
Proof.
  induction replies as [|reply rest IH]; intros st; [reflexivity|].
  cbn [_async_update_data]. destruct reply as [event|e]; [|reflexivity].
  destruct (Py.truthy event); [|apply IH].
  pose proof (handle_event_registry event st) as Hone.
  destruct (handle_event event st) as [[st1 t1] [u|e]]; cbn [fst] in *; [|exact Hone].
  specialize (IH st1).
  destruct (poll rest st1) as [[st2 t2] s]. cbn [fst] in *. congruence.
Qed.

Lemma handle_one_heap event st i :
  ~ registered_stateful (function_uid_map st) i ->
  heap (handle_one event st).1.1 i = heap st i.
Proof.
  intros Hfree.
  destruct (handle_one_cases_registered event st)
    as [(r & ->)|[(fmt & arg & ->)|[(ch & u & v & c & r & Hreg & Hst & ->)|(b & ->)]]];
    try reflexivity.
  cbn [fst heap].
  destruct (Nat.eqb i (ch_id ch)) eqn:Hi; [|reflexivity].
  apply Nat.eqb_eq in Hi. exfalso. apply Hfree. exists u, ch. auto.
Qed.

Lemma handle_events_heap events i : forall st,
  ~ registered_stateful (function_uid_map st) i ->
  heap (handle_events events st).1.1 i = heap st i.
Proof.
  induction events as [|event rest IH]; intros st Hfree; [reflexivity|].
  rewrite handle_events_cons.
  pose proof (handle_one_heap event st i Hfree) as Hone.
  pose proof (handle_one_registry event st) as Hreg.
  destruct (handle_one event st) as [[st1 t1] [u|e]]; cbn [fst] in *; [|exact Hone].
  assert (Hfree1 : ~ registered_stateful (function_uid_map st1) i) by (rewrite Hreg; exact Hfree).
  specialize (IH st1 Hfree1).
  destruct (handle_events rest st1) as [[st2 t2] r]. cbn [fst] in *. congruence.
Qed.

Lemma handle_event_heap event_data st i :
  ~ registered_stateful (function_uid_map st) i ->
  heap (handle_event event_data st).1.1 i = heap st i.
Proof.
  intros Hfree. unfold handle_event. rewrite bind_lift.
  destruct (Py.getitem event_data "events") as [events|e]; [|reflexivity].
  rewrite bind_lift. destruct (Py.iter events) as [items|e]; [|reflexivity].
  apply handle_events_heap, Hfree.
Qed.

(** X2: a run of the poll loop writes the cached state of no object other
    than the stateful channels the registry maps a function UID to. *)
Theorem poll_writes_registered_stateful_channels_only replies i : forall st,
  ~ registered_stateful (function_uid_map st) i ->
  heap (poll replies st).1.1 i = heap st i.
Proof.
  induction replies as [|reply rest IH]; intros st Hfree; [reflexivity|].
  cbn [_async_update_data]. destruct reply as [event|e]; [|reflexivity].
  destruct (Py.truthy event); [|apply IH, Hfree].
  pose proof (handle_event_heap event st i Hfree) as Hone.
  pose proof (handle_event_registry event st) as Hreg.
  destruct (handle_event event st) as [[st1 t1] [u|e]]; cbn [fst] in *; [|exact Hone].
  assert (Hfree1 : ~ registered_stateful (function_uid_map st1) i) by (rewrite Hreg; exact Hfree).
  specialize (IH st1 Hfree1).
  destruct (poll rest st1) as [[st2 t2] s]. cbn [fst] in *. congruence.
Qed.

(** ** Events and replies that are passed over *)

(** X3: a batch whose events all carry a kind other than
    "outputDeviceFunctionCalled" is handled to its end without a single call
    and without any change of state. *)
Theorem other_kinds_of_event_are_ignored events st :
  Forall (fun event =>
            exists kind,
              Py.getitem event "event" = Ok kind /\
              Py.eq_str kind EVENT_TYPE_OUTPUT_DEVICE_FUNCTION_CALLED = false) events ->
  handle_event (PDict [("events", PList events)]) st = (st, [], Ok tt).
Proof.
  intros Hall. unfold handle_event.
  rewrite bind_lift. cbn [Py.getitem Py.dict_lookup String.eqb Ascii.eqb Bool.eqb].
  rewrite bind_lift. cbn [Py.iter].
  induction Hall as [|event rest (kind & Hkind & Hother) _ IH]; [reflexivity|].
  rewrite handle_events_cons.
  assert (Hone : handle_one event st = (st, [], Ok tt)).
  { unfold handle_one. rewrite bind_lift, Hkind, Hother. reflexivity. }
  rewrite Hone, IH. reflexivity.
Qed.

(** X4: the replies that are false in a boolean context (an empty batch,
    [None]) play no part in a run: without them the run is the same. *)
Theorem falsy_batches_are_skipped replies : forall st,
  poll replies st = poll (List.filter consumed replies) st.
Proof.
  induction replies as [|reply rest IH]; intros st; [reflexivity|].
  destruct reply as [event|e]; cbn [List.filter consumed].
  - destruct (Py.truthy event) eqn:Htrue; cbn [_async_update_data]; rewrite Htrue.
    + destruct (handle_event event st) as [[st1 t1] [u|e]]; [|reflexivity].
      rewrite IH. reflexivity.
    + apply IH.
  - reflexivity.
Qed.

(** X5: an exception raised by [get_events] leaves the loop as it is: it
    is neither logged nor turned into [UpdateFailed], the calls made before
    it stand, and no later reply is consumed. *)
Theorem get_events_exception_propagates pre e post st st1 t1 :
  _async_update_data update_values pre st = (st1, t1, Polling) ->
  _async_update_data update_values (pre ++ GetEventsRaises e :: post) st =
    (st1, t1, Propagated e).
Proof.
  intros Hpre. rewrite (poll_app _ _ _ _ _ Hpre).
  cbn [_async_update_data]. rewrite app_nil_r. reflexivity.
Qed.





(** ** Counting what a batch does *)

Lemma handle_one_bus_events_length event st :
  List.length (bus_events (handle_one event st).1.2) <= 1.
Proof.
  destruct (handle_one_cases event st)
    as [(r & ->)|[(fmt & arg & ->)|[(ch & u & v & c & r & _ & ->)|(b & ->)]]];
    cbn [fst snd bus_events List.length]; try destruct r; cbn; lia.
Qed.

(** X7: handling a list of events fires at most one discrete event per
    event of the list. *)
Theorem at_most_one_discrete_event_per_event events : forall st,
  List.length (bus_events (handle_events events st).1.2) <= List.length events.
Proof.
  induction events as [|event rest IH]; intros st; [cbn; lia|].
  rewrite handle_events_cons.
  pose proof (handle_one_bus_events_length event st) as Hone.
  destruct (handle_one event st) as [[st1 t1] [u|e]]; cbn [fst snd] in *.
  - specialize (IH st1).
    destruct (handle_events rest st1) as [[st2 t2] r]. cbn [fst snd] in *.
    rewrite bus_events_app, List.length_app. cbn [List.length]. lia.
  - cbn [List.length]. lia.
Qed.

Lemma updates_app t1 t2 : updates (t1 ++ t2) = updates t1 + updates t2.
Proof. unfold updates. rewrite List.filter_app, List.length_app. reflexivity. Qed.

Lemma notifications_app t1 t2 : notifications (t1 ++ t2) = notifications t1 + notifications t2.
Proof. unfold notifications. rewrite List.filter_app, List.length_app. reflexivity. Qed.

Lemma handle_one_notifications event st :
  match (handle_one event st).2 with
  | Ok _ => notifications (handle_one event st).1.2 = updates (handle_one event st).1.2
  | Raise _ =>
      notifications (handle_one event st).1.2 = 0 /\ updates (handle_one event st).1.2 <= 1
  end.
Proof.
  destruct (handle_one_cases event st)
    as [(r & ->)|[(fmt & arg & ->)|[(ch & u & v & c & r & _ & ->)|(b & ->)]]];
    cbn [fst snd]; try destruct r; cbn; auto.
Qed.

Lemma handle_events_notifications events : forall st,
  match (handle_events events st).2 with
  | Ok _ =>
      notifications (handle_events events st).1.2 = updates (handle_events events st).1.2
  | Raise _ =>
      notifications (handle_events events st).1.2 <= updates (handle_events events st).1.2 /\
      updates (handle_events events st).1.2 <= S (notifications (handle_events events st).1.2)
  end.
Proof.
  induction events as [|event rest IH]; intros st; [reflexivity|].
  rewrite handle_events_cons.
  pose proof (handle_one_notifications event st) as Hone.
  destruct (handle_one event st) as [[st1 t1] [u|e]]; cbn [fst snd] in *.
  - specialize (IH st1).
    destruct (handle_events rest st1) as [[st2 t2] [u2|e2]]; cbn [fst snd] in *;
      rewrite notifications_app, updates_app; lia.
  - lia.
Qed.

(** X8: in a batch handled to its end, the listeners are notified once
    for every call of [update_values]; when an exception ends the handling,
    at most the last call of [update_values] is left without its
    notification. *)
Theorem every_update_is_notified event_data st st' t r :
  handle_event event_data st = (st', t, r) ->
  match r with
  | Ok _ => notifications t = updates t
  | Raise _ => notifications t <= updates t <= S (notifications t)
  end.
Proof.
  unfold handle_event. rewrite bind_lift.
  destruct (Py.getitem event_data "events") as [events|e];
    [|intros [= <- <- <-]; cbn; lia].
  rewrite bind_lift.
  destruct (Py.iter events) as [items|e]; [|intros [= <- <- <-]; cbn; lia].
  intros Hrun. pose proof (handle_events_notifications items st) as H.
  rewrite Hrun in H. exact H.
Qed.

(** X9: an exception raised while one event of a batch is handled ends
    the handling of the batch: the calls made up to it stand, and none of
    the events after it is looked at. *)
Theorem exception_ends_the_batch pre event post st st1 t1 st2 t2 e :
  handle_events pre st = (st1, t1, Ok tt) ->
  handle_one event st1 = (st2, t2, Raise e) ->
  handle_event (PDict [("events", PList (pre ++ event :: post))]) st =
    (st2, t1 ++ t2, Raise e).
Proof.
  intros Hpre Hone. unfold handle_event.
  rewrite bind_lift. cbn [Py.getitem Py.dict_lookup String.eqb Ascii.eqb Bool.eqb].
  rewrite bind_lift. cbn [Py.iter].
  rewrite handle_events_app, Hpre, handle_events_cons, Hone. reflexivity.
Qed.

(** ** Where a discrete event comes from *)

Lemma eq_str_true o s : Py.eq_str o s = true -> o = PStr s.
Proof.
  destruct o; try discriminate. cbn [Py.eq_str]. intros H.
  apply String.eqb_eq in H. congruence.
Qed.

Lemma dict_get_Some m k ch :
  dict_get m k = Ok (Some ch) -> exists u, k = PStr u /\ m !! u = Some ch.
Proof.
  destruct k; try discriminate. cbn [dict_get]. intros [= H]. eauto.
Qed.

Lemma not_stateful ch : is_stateful ch = false -> ch_kind ch = EventChannel.
Proof. unfold is_stateful. destruct (ch_kind ch); try discriminate. reflexivity. Qed.

(** A value of length 2 whose items at 0 and 1 can be subscripted by a
    string is a list of two items. *)
Lemma two_entries values n v0 v1 k0 x0 k1 x1 :
  Py.len values = Ok n ->
  negb (Nat.eqb n 2) = false ->
  Py.getitem_idx values 0 = Ok v0 ->
  Py.getitem v0 k0 = Ok x0 ->
  Py.getitem_idx values 1 = Ok v1 ->
  Py.getitem v1 k1 = Ok x1 ->
  values = PList [v0; v1].
Proof.
  intros Hlen Hn H0 Hx0 H1 Hx1.
  apply Bool.negb_false_iff, Nat.eqb_eq in Hn. subst n.
  destruct values as [| | | |s|l|d]; try discriminate.
  - cbn [Py.getitem_idx] in H0. destruct (String.get 0 s); [|discriminate].
    injection H0 as <-. discriminate.
  - cbn [Py.len] in Hlen. injection Hlen as Hlen.
    destruct l as [|a [|b [|c l]]]; try discriminate.
    cbn in H0, H1. congruence.
Qed.

(** X10: whatever is fired on the bus comes from an event of the "device
    function called" kind whose function UID the registry maps to an event
    channel and whose [values] is a list of two entries; it is fired under
    the name "enet_event", carries the identifiers of that channel's device,
    is of type "initial_press" or "short_release", and its subtype is the
    event's [channelNumber] or that number plus one. *)
Theorem discrete_event_comes_from_button_event event st st' t r name b :
  handle_one event st = (st', t, r) ->
  In (BusAsyncFire name b) t ->
  exists data u ch v0 v1 subtype,
    function_called_event event data (PStr u) /\
    function_uid_map st !! u = Some ch /\
    ch_kind ch = EventChannel /\
    Py.getitem data "values" = Ok (PList [v0; v1]) /\
    Py.getitem data "channelNumber" = Ok subtype /\
    name = EVENT_ENET /\
    bd_device_id b = hass_device_entry_id (device ch) /\
    bd_unique_id b = uid (device ch) /\
    (bd_type b = EVENT_TYPE_INITIAL_PRESS \/ bd_type b = EVENT_TYPE_SHORT_RELEASE) /\
    (bd_subtype b = subtype \/ Py.add_one subtype = Ok (bd_subtype b)).
Proof.
  intros Hrun Hin. revert Hrun. unfold handle_one. run_body.
  all: unfold emit, ret; cbv beta iota zeta.
  all: intros [= <- <- <-].
  all: try (exfalso; clear -Hin; cbn in Hin; intuition discriminate).
  all: match goal with
       | Hkind : Py.eq_str ?a EVENT_TYPE_OUTPUT_DEVICE_FUNCTION_CALLED = true,
         Hdata : Py.getitem _ "eventData" = Ok ?d,
         Hget : dict_get _ _ = Ok (Some ?c),
         Hst : is_stateful ?c = false,
         Hsub : Py.getitem ?d "channelNumber" = Ok ?cn,
         Hlen : Py.len ?vs = Ok _,
         Hn : negb _ = false,
         H0 : Py.getitem_idx ?vs 0 = Ok ?x0,
         Hx0 : Py.getitem ?x0 "valueTypeID" = Ok _,
         H1 : Py.getitem_idx ?vs 1 = Ok ?x1,
         Hx1 : Py.getitem ?x1 "valueTypeID" = Ok _ |- _ =>
           apply eq_str_true in Hkind; subst a;
           destruct (dict_get_Some _ _ _ Hget) as (u & -> & Hreg);
           pose proof (two_entries _ _ _ _ _ _ _ _ Hlen Hn H0 Hx0 H1 Hx1) as ->;
           destruct Hin as [Hin|[]]; injection Hin as <- <-;
           exists d, u, c, x0, x1, cn; repeat split; auto using not_stateful
       end.
Qed.

(** ** The two decoding steps *)

Lemma rocker_down_true v0 :
  rocker_down v0 = true ->
  exists vt0 x0,
    Py.getitem v0 "valueTypeID" = Ok vt0 /\
    Py.eq_str vt0 VALUE_TYPE_ROCKER_STATE = true /\
    Py.getitem v0 "value" = Ok x0 /\
    Py.eq_str x0 "DOWN_BUTTON" = true.
Proof.
  unfold rocker_down.
  destruct (Py.getitem v0 "valueTypeID") as [vt0|e]; [|discriminate].
  destruct (Py.getitem v0 "value") as [x0|e]; [|discriminate].
  intros H. apply andb_prop in H as [H0 H1]. exists vt0, x0. auto.
Qed.

(** X11: on an event channel, when the first of two values is a
    rocker-state entry with value "DOWN_BUTTON" and [channelNumber] is the
    integer [n], the event fired, if one is, has subtype [n + 1]; the state
    is left alone, and nothing is called when the body raises. *)
Theorem rocker_down_adds_one event data function_uid ch v0 v1 n st st' t r :
  function_called_event event data function_uid ->
  dict_get (function_uid_map st) function_uid = Ok (Some ch) ->
  ch_kind ch = EventChannel ->
  Py.getitem data "values" = Ok (PList [v0; v1]) ->
  Py.getitem data "channelNumber" = Ok (PInt n) ->
  rocker_down v0 = true ->
  handle_one event st = (st', t, r) ->
  st' = st /\
  match r with
  | Ok _ =>
      exists event_type,
        t = [BusAsyncFire EVENT_ENET
               {| bd_device_id := hass_device_entry_id (device ch);
                  bd_unique_id := uid (device ch);
                  bd_type := event_type;
                  bd_subtype := PInt (n + 1) |}]
  | Raise _ => t = []
  end.
Proof.
  intros Hev Hget Hch Hvalues Hsub Hdown.
  assert (Hst : is_stateful ch = false) by (unfold is_stateful; rewrite Hch; reflexivity).
  rewrite (handle_one_decode _ _ _ _ _ _ _ _ Hev Hget Hst Hvalues Hsub).
  destruct (rocker_down_true _ Hdown) as (vt0 & x0 & -> & -> & -> & ->).
  cbn [Py.add_one].
  destruct (Py.getitem v1 "valueTypeID") as [vt1|e1];
    [|intros [= <- <- <-]; auto].
  destruct (Py.eq_str vt1 VALUE_TYPE_ROCKER_SWITCH_TIME);
    [destruct (Py.getitem v1 "value") as [x1|e1];
       [destruct (Py.gt_zero x1) as [released|e1]|]|];
    intros [= <- <- <-]; eauto.
Qed.

(** X12: on an event channel, when the first of two values is a
    rocker-state entry with value "DOWN_BUTTON" and [channelNumber] is not a
    number (a string, [None], a list, a dict), the body raises [TypeError]
    before any call and leaves the state alone. *)
Theorem rocker_down_needs_a_number event data function_uid ch v0 v1 subtype st :
  function_called_event event data function_uid ->
  dict_get (function_uid_map st) function_uid = Ok (Some ch) ->
  ch_kind ch = EventChannel ->
  Py.getitem data "values" = Ok (PList [v0; v1]) ->
  Py.getitem data "channelNumber" = Ok subtype ->
  rocker_down v0 = true ->
  (forall z, subtype <> PInt z) ->
  (forall f, subtype <> PFloat f) ->
  (forall b, subtype <> PBool b) ->
  handle_one event st = (st, [], Raise TypeError).
Proof.
  intros Hev Hget Hch Hvalues Hsub Hdown Hint Hfloat Hbool.
  assert (Hst : is_stateful ch = false) by (unfold is_stateful; rewrite Hch; reflexivity).
  rewrite (handle_one_decode _ _ _ _ _ _ _ _ Hev Hget Hst Hvalues Hsub).
  destruct (rocker_down_true _ Hdown) as (vt0 & x0 & -> & -> & -> & ->).
  destruct subtype as [|b|z|f|s|l|d]; try reflexivity.
  - destruct (Hbool b eq_refl).
  - destruct (Hint z eq_refl).
  - destruct (Hfloat f eq_refl).
Qed.

(** X13: on an event channel, when the second of two values is a
    switch-time entry whose value is the integer [z], a body that returns
    has fired one event, of type "short_release" when [z > 0] and of type
    "initial_press" when [z <= 0]. *)
Theorem switch_time_decides_the_type event data function_uid ch v0 v1 subtype vt1 z st st' t :
  function_called_event event data function_uid ->
  dict_get (function_uid_map st) function_uid = Ok (Some ch) ->
  ch_kind ch = EventChannel ->
  Py.getitem data "values" = Ok (PList [v0; v1]) ->
  Py.getitem data "channelNumber" = Ok subtype ->
  Py.getitem v1 "valueTypeID" = Ok vt1 ->
  Py.eq_str vt1 VALUE_TYPE_ROCKER_SWITCH_TIME = true ->
  Py.getitem v1 "value" = Ok (PInt z) ->
  handle_one event st = (st', t, Ok tt) ->
  exists subtype',
    t = [BusAsyncFire EVENT_ENET
           {| bd_device_id := hass_device_entry_id (device ch);
              bd_unique_id := uid (device ch);
              bd_type := if (0 <? z)%Z then EVENT_TYPE_SHORT_RELEASE
                         else EVENT_TYPE_INITIAL_PRESS;
              bd_subtype := subtype' |}].
Proof.
  intros Hev Hget Hch Hvalues Hsub Ht1 Hswitch Hz.
  assert (Hst : is_stateful ch = false) by (unfold is_stateful; rewrite Hch; reflexivity).
  rewrite (handle_one_decode _ _ _ _ _ _ _ _ Hev Hget Hst Hvalues Hsub).
  rewrite Ht1, Hswitch, Hz. cbn [Py.gt_zero].
  destruct (Py.getitem v0 "valueTypeID") as [vt0|e0]; [|discriminate].
  destruct (Py.eq_str vt0 VALUE_TYPE_ROCKER_STATE).
  - destruct (Py.getitem v0 "value") as [x0|e0]; [|discriminate].
    destruct (Py.eq_str x0 "DOWN_BUTTON").
    + destruct (Py.add_one subtype) as [s'|e0]; [|discriminate].
      intros [= <- <-]. eauto.
    + intros [= <- <-]. eauto.
  - intros [= <- <-]. eauto.
Qed.

(** X14: on an event channel, when the second of two values is not a
    switch-time entry, its value is not looked at (it may be missing): a
    body that returns has fired one event of type "initial_press". *)
Theorem without_switch_time_it_is_a_press event data function_uid ch v0 v1 subtype vt1 st st' t :
  function_called_event event data function_uid ->
  dict_get (function_uid_map st) function_uid = Ok (Some ch) ->
  ch_kind ch = EventChannel ->
  Py.getitem data "values" = Ok (PList [v0; v1]) ->
  Py.getitem data "channelNumber" = Ok subtype ->
  Py.getitem v1 "valueTypeID" = Ok vt1 ->
  Py.eq_str vt1 VALUE_TYPE_ROCKER_SWITCH_TIME = false ->
  handle_one event st = (st', t, Ok tt) ->
  exists subtype',
    t = [BusAsyncFire EVENT_ENET
           {| bd_device_id := hass_device_entry_id (device ch);
              bd_unique_id := uid (device ch);
              bd_type := EVENT_TYPE_INITIAL_PRESS;
              bd_subtype := subtype' |}].
Proof.
  intros Hev Hget Hch Hvalues Hsub Ht1 Hswitch.
  assert (Hst : is_stateful ch = false) by (unfold is_stateful; rewrite Hch; reflexivity).
  rewrite (handle_one_decode _ _ _ _ _ _ _ _ Hev Hget Hst Hvalues Hsub).
  rewrite Ht1, Hswitch.
  destruct (Py.getitem v0 "valueTypeID") as [vt0|e0]; [|discriminate].
  destruct (Py.eq_str vt0 VALUE_TYPE_ROCKER_STATE).
  - destruct (Py.getitem v0 "value") as [x0|e0]; [|discriminate].
    destruct (Py.eq_str x0 "DOWN_BUTTON").
    + destruct (Py.add_one subtype) as [s'|e0]; [|discriminate].
      intros [= <- <-]. eauto.
    + intros [= <- <-]. eauto.
  - intros [= <- <-]. eauto.
Qed.

(** ** Setting up the listeners *)

Lemma setup_event_listeners_all_return devices : forall st,
  Forall (fun d => register_events d = Ok tt) devices ->
  exists st',
    setup_event_listeners devices st =
      (st', List.map (fun d => RegisterEvents (dev_ref d)) devices, Ok tt) /\
    heap st' = heap st.
Proof.
  induction devices as [|d rest IH]; intros st Hall.
  - exists st. split; reflexivity.
  - inversion Hall as [|d' rest' Hd Hrest]; subst.
    rewrite setup_event_listeners_cons, Hd. cbv zeta.
    destruct (IH {| function_uid_map := get_function_uids_for_event d ∪ function_uid_map st;
                    heap := heap st |} Hrest) as (st' & -> & Hheap).
    exists st'. split; [reflexivity | exact Hheap].
Qed.

Lemma setup_event_listeners_returns_only_if devices : forall st st' t,
  setup_event_listeners devices st = (st', t, Ok tt) ->
  Forall (fun d => register_events d = Ok tt) devices.
Proof.
  induction devices as [|d rest IH]; intros st st' t Hrun; [constructor|].
  rewrite setup_event_listeners_cons in Hrun. cbv zeta in Hrun.
  destruct (register_events d) as [[]|e] eqn:Hd; [|discriminate Hrun].
  destruct (setup_event_listeners rest _) as [[st2 t2] r2] eqn:Hrest.
  injection Hrun as <- <- ->.
  constructor; [exact Hd | exact (IH _ _ _ Hrest)].
Qed.

(** X15: when [register_events] returns for every device, setting up the
    listeners returns, has subscribed the devices one by one in the order of
    the list, and has written no channel's cached state; and it returns in
    that case only. *)
Theorem setup_subscribes_every_device devices st :
  (Forall (fun d => register_events d = Ok tt) devices ->
   exists st',
     setup_event_listeners devices st =
       (st', List.map (fun d => RegisterEvents (dev_ref d)) devices, Ok tt) /\
     heap st' = heap st) /\
  ((setup_event_listeners devices st).2 = Ok tt ->
   Forall (fun d => register_events d = Ok tt) devices).
Proof.
  split.
  - apply setup_event_listeners_all_return.
  - destruct (setup_event_listeners devices st) as [[st' t] r] eqn:Hrun.
    cbn [snd]. intros ->. exact (setup_event_listeners_returns_only_if _ _ _ _ Hrun).
Qed.

Lemma setup_event_listeners_app_eq pre : forall post st,
  setup_event_listeners (pre ++ post) st =
  match setup_event_listeners pre st with
  | (st1, t1, Ok _) =>
      let '(st2, t2, r) := setup_event_listeners post st1 in (st2, t1 ++ t2, r)
  | (st1, t1, Raise e) => (st1, t1, Raise e)
  end.
Proof.
  induction pre as [|d pre IH]; intros post st.
  - cbn [app setup_event_listeners]. unfold ret.
    destruct (setup_event_listeners post st) as [[st2 t2] r]. reflexivity.
  - cbn [app]. rewrite !setup_event_listeners_cons. cbv zeta.
    destruct (register_events d) as [[]|e]; [|reflexivity].
    rewrite IH.
    destruct (setup_event_listeners pre _) as [[st1 t1] [[]|e]]; [|reflexivity].
    destruct (setup_event_listeners post st1) as [[st2 t2] r]. reflexivity.
Qed.

(** X16: when [register_events] raises for a device, after returning for
    all devices before it, setting up the listeners raises that exception:
    the devices up to and including this one have been merged into the
    registry and subscribed, and the devices after it play no part. *)
Theorem setup_stops_at_the_first_failure pre d post e st :
  Forall (fun d' => register_events d' = Ok tt) pre ->
  register_events d = Raise e ->
  exists st1,
    setup_event_listeners pre st =
      (st1, List.map (fun d' => RegisterEvents (dev_ref d')) pre, Ok tt) /\
    setup_event_listeners (pre ++ d :: post) st =
      ({| function_uid_map := get_function_uids_for_event d ∪ function_uid_map st1;
          heap := heap st1 |},
       List.map (fun d' => RegisterEvents (dev_ref d')) (pre ++ [d]),
       Raise e).
Proof.
  intros Hpre Hd.
  destruct (setup_event_listeners_all_return pre st Hpre) as (st1 & Hrun & _).
  exists st1. split; [exact Hrun|].
  rewrite setup_event_listeners_app_eq, Hrun, setup_event_listeners_cons, Hd.
  cbv zeta. rewrite List.map_app. reflexivity.
Qed.

(** X17: setting up the listeners never removes a function UID from the
    registry, however it ends. *)
Theorem setup_only_adds_function_uids devices : forall st (u : string),
  is_Some (function_uid_map st !! u) ->
  is_Some (function_uid_map (setup_event_listeners devices st).1.1 !! u).
Proof.
  induction devices as [|d rest IH]; intros st u Hin; [exact Hin|].
  rewrite setup_event_listeners_cons. cbv zeta.
  assert (Hin1 : is_Some ((get_function_uids_for_event d ∪ function_uid_map st) !! u)).
  { apply lookup_union_is_Some. right. exact Hin. }
  destruct (register_events d) as [[]|e]; [|exact Hin1].
  specialize (IH {| function_uid_map := get_function_uids_for_event d ∪ function_uid_map st;
                    heap := heap st |} u Hin1).
  destruct (setup_event_listeners rest _) as [[st2 t2] r]. exact IH.
Qed.

End Properties.

(** * Properties of setting up and unloading *)

Section HostProperties.

Context {cache : Type}.
Variable DOMAIN : string.

Implicit Types (hs : HomeAssistant cache) (entry : ConfigEntry) (replies : setup_replies).

(** Runs [async_setup_entry] up to the login, on an entry whose data has
    the three keys. *)
Ltac run_setup Hurl Husername Hpassword :=
  cbv [async_setup_entry hbind hlift hret hemit call try_call setdefault_domain new_hub
       store_hub set_devices coordinator_setup_event_listeners];
  rewrite Hurl, Husername, Hpassword; cbv beta iota zeta;
  cbn [domain_data objects next_object devices coordinator url username password];
  rewrite ?Nat.eqb_refl.

(** X18: when the login raises, [async_setup_entry] does not raise: it
    logs the exception and returns [False]; the hub is not written to
    [hass.data] and nothing else is called. *)
Theorem login_failure_is_reported replies h entry hs u n p e :
  Py.getitem (entry_data entry) "url" = Ok u ->
  Py.getitem (entry_data entry) "username" = Ok n ->
  Py.getitem (entry_data entry) "password" = Ok p ->
  simple_login replies = Raise e ->
  (async_setup_entry DOMAIN replies h entry hs).2 = Ok false /\
  (async_setup_entry DOMAIN replies h entry hs).1.2 =
    [SimpleLogin (next_object hs);
     LogError "Failed to login to Enet Smart Home: %s" e] /\
  domain_data (async_setup_entry DOMAIN replies h entry hs).1.1 =
    Some (default ∅ (domain_data hs)).
Proof.
  intros Hu Hn Hp Hlogin.
  run_setup Hu Hn Hp. rewrite Hlogin. cbn. auto.
Qed.

(** X19: when the login returns and [get_devices] raises,
    [async_setup_entry] does not raise: it logs the exception and returns
    [False], without forwarding the entry, setting up listeners or starting
    the poll task. *)
Theorem get_devices_failure_is_reported replies h entry hs u n p e :
  Py.getitem (entry_data entry) "url" = Ok u ->
  Py.getitem (entry_data entry) "username" = Ok n ->
  Py.getitem (entry_data entry) "password" = Ok p ->
  simple_login replies = Ok tt ->
  get_devices replies = Raise e ->
  (async_setup_entry DOMAIN replies h entry hs).2 = Ok false /\
  (async_setup_entry DOMAIN replies h entry hs).1.2 =
    [SimpleLogin (next_object hs);
     GetDevices (next_object hs);
     LogError "Failed to get devices from Enet Smart Home: %s" e].
Proof.
  intros Hu Hn Hp Hlogin Hget.
  run_setup Hu Hn Hp. rewrite Hlogin, Hget. cbn. auto.
Qed.

Lemma hub_is_stored_once_logged_in_aux replies h entry hs u n p :
  Py.getitem (entry_data entry) "url" = Ok u ->
  Py.getitem (entry_data entry) "username" = Ok n ->
  Py.getitem (entry_data entry) "password" = Ok p ->
  simple_login replies = Ok tt ->
  domain_data (async_setup_entry DOMAIN replies h entry hs).1.1 =
    Some (<[entry_id entry := next_object hs]> (default ∅ (domain_data hs))).
Proof.
  intros Hu Hn Hp Hlogin.
  run_setup Hu Hn Hp. rewrite Hlogin.
  cbn [domain_data objects next_object devices coordinator url username password].
  destruct (get_devices replies) as [devs|e]; [|reflexivity].
  cbn [domain_data objects next_object devices coordinator url username password].
  rewrite ?Nat.eqb_refl.
  destruct (async_forward_entry_setups replies) as [[]|e]; [|reflexivity].
  cbn [domain_data objects next_object devices coordinator url username password].
  rewrite ?Nat.eqb_refl.
  cbn [domain_data objects next_object devices coordinator url username password].
  destruct (setup_event_listeners devs (init h)) as [[st t] [[]|e]]; [|reflexivity].
  destruct (async_setup_devices replies) as [[]|e]; reflexivity.
Qed.

(** X20: once the login has returned, the hub is in [hass.data] under
    the entry's id however the call ends: also when [get_devices] raises and
    [False] is returned, and when a later step raises. *)
Theorem hub_is_stored_once_logged_in replies h entry hs u n p :
  Py.getitem (entry_data entry) "url" = Ok u ->
  Py.getitem (entry_data entry) "username" = Ok n ->
  Py.getitem (entry_data entry) "password" = Ok p ->
  simple_login replies = Ok tt ->
  domain_data (async_setup_entry DOMAIN replies h entry hs).1.1 =
    Some (<[entry_id entry := next_object hs]> (default ∅ (domain_data hs))).
Proof. apply hub_is_stored_once_logged_in_aux. Qed.

(** X21: when every collaborator returns, [async_setup_entry] returns
    [True]; it has logged in, fetched the devices, forwarded the entry to the
    platforms, subscribed the devices in order, set the devices up and
    started the poll task, in this order; the hub object it made has the
    devices and a coordinator whose registry is the one
    [setup_event_listeners] builds from the empty registry; and no other
    object is written. *)
Theorem setup_runs_to_the_poll_task replies h entry hs u n p devs :
  Py.getitem (entry_data entry) "url" = Ok u ->
  Py.getitem (entry_data entry) "username" = Ok n ->
  Py.getitem (entry_data entry) "password" = Ok p ->
  simple_login replies = Ok tt ->
  get_devices replies = Ok devs ->
  async_forward_entry_setups replies = Ok tt ->
  Forall (fun d => register_events d = Ok tt) devs ->
  async_setup_devices replies = Ok tt ->
  let run := async_setup_entry DOMAIN replies h entry hs in
  let hub := next_object hs in
  run.2 = Ok true /\
  run.1.2 =
    [SimpleLogin hub; GetDevices hub;
     AsyncForwardEntrySetups (entry_id entry) PLATFORMS] ++
    List.map (fun d => OfCoordinator hub (RegisterEvents (dev_ref d))) devs ++
    [AsyncSetupDevices hub; CreateTaskAsyncRefresh hub] /\
  devices (objects run.1.1 hub) = Some devs /\
  coordinator (objects run.1.1 hub) = (setup_event_listeners devs (init h)).1.1 /\
  (forall i, i <> hub -> objects run.1.1 i = objects hs i).
Proof.
  intros Hu Hn Hp Hlogin Hget Hforward Hregister Hsetup run hub. subst run hub.
  run_setup Hu Hn Hp. rewrite Hlogin, Hget, Hforward, Hsetup.
  cbn [domain_data objects next_object devices coordinator url username password].
  rewrite ?Nat.eqb_refl.
  cbn [domain_data objects next_object devices coordinator url username password].
  destruct (setup_event_listeners_all_return devs (init h) Hregister) as (st & Hrun & _).
  rewrite Hrun. cbn [fst snd app].
  rewrite ?Nat.eqb_refl.
  cbn [domain_data objects next_object devices coordinator url username password].
  rewrite List.map_map, !Nat.eqb_refl.
  repeat split.
  intros i Hi. apply Nat.eqb_neq in Hi. rewrite !Hi. reflexivity.
Qed.

(** X22: [async_setup_entry] returns [True] exactly when the entry's
    data has the three keys, every collaborator returns and
    [register_events] returns for every device. *)
Theorem setup_returns_true_iff replies h entry hs :
  (async_setup_entry DOMAIN replies h entry hs).2 = Ok true <->
  (exists u n p,
      Py.getitem (entry_data entry) "url" = Ok u /\
      Py.getitem (entry_data entry) "username" = Ok n /\
      Py.getitem (entry_data entry) "password" = Ok p) /\
  simple_login replies = Ok tt /\
  async_forward_entry_setups replies = Ok tt /\
  async_setup_devices replies = Ok tt /\
  exists devs,
    get_devices replies = Ok devs /\
    Forall (fun d => register_events d = Ok tt) devs.
Proof.
  split.
  - destruct (Py.getitem (entry_data entry) "url") as [u|e] eqn:Hu.
    2:{ cbv [async_setup_entry hbind hlift setdefault_domain]. rewrite Hu. discriminate. }
    destruct (Py.getitem (entry_data entry) "username") as [n|e] eqn:Hn.
    2:{ cbv [async_setup_entry hbind hlift setdefault_domain]. rewrite Hu, Hn. discriminate. }
    destruct (Py.getitem (entry_data entry) "password") as [p|e] eqn:Hp.
    2:{ cbv [async_setup_entry hbind hlift setdefault_domain]. rewrite Hu, Hn, Hp.
        discriminate. }
    run_setup Hu Hn Hp.
    destruct (simple_login replies) as [[]|e]; [|discriminate].
    cbn [domain_data objects next_object devices coordinator url username password].
    destruct (get_devices replies) as [devs|e]; [|discriminate].
    cbn [domain_data objects next_object devices coordinator url username password].
    rewrite ?Nat.eqb_refl.
    destruct (async_forward_entry_setups replies) as [[]|e]; [|discriminate].
    cbn [domain_data objects next_object devices coordinator url username password].
    rewrite ?Nat.eqb_refl.
    cbn [domain_data objects next_object devices coordinator url username password].
    destruct (setup_event_listeners devs (init h)) as [[st t] [[]|e]] eqn:Hrun;
      [|discriminate].
    destruct (async_setup_devices replies) as [[]|e]; [|discriminate].
    intros _. split; [exists u, n, p; auto|].
    split; [reflexivity|]. split; [reflexivity|]. split; [reflexivity|].
    exists devs. split; [reflexivity|].
    exact (setup_event_listeners_returns_only_if _ _ _ _ Hrun).
  - intros ((u & n & p & Hu & Hn & Hp) & Hlogin & Hforward & Hsetup & devs & Hget & Hall).
    run_setup Hu Hn Hp. rewrite Hlogin, Hget, Hforward, Hsetup.
    cbn [domain_data objects next_object devices coordinator url username password].
    rewrite ?Nat.eqb_refl.
    cbn [domain_data objects next_object devices coordinator url username password].
    destruct (setup_event_listeners_all_return devs (init h) Hall) as (st & Hrun & _).
    rewrite Hrun. reflexivity.
Qed.

(** X23: setting an entry up and unloading it again leaves [hass.data]
    as setting up found it (with the dict of the integration in place), when
    the entry's id was not in it: the login has returned, whatever came
    after it, and the platforms are unloaded. *)
Theorem unload_undoes_setup replies h entry hs u n p :
  Py.getitem (entry_data entry) "url" = Ok u ->
  Py.getitem (entry_data entry) "username" = Ok n ->
  Py.getitem (entry_data entry) "password" = Ok p ->
  simple_login replies = Ok tt ->
  default ∅ (domain_data hs) !! entry_id entry = None ->
  let hs1 := (async_setup_entry DOMAIN replies h entry hs).1.1 in
  let unload := async_unload_entry DOMAIN (Ok true) entry hs1 in
  unload.2 = Ok true /\
  unload.1.2 = [AsyncUnloadPlatforms (entry_id entry) PLATFORMS] /\
  domain_data unload.1.1 = Some (default ∅ (domain_data hs)) /\
  objects unload.1.1 = objects hs1.
Proof.
  intros Hu Hn Hp Hlogin Hfresh hs1 unload.
  pose proof (hub_is_stored_once_logged_in_aux replies h entry hs u n p Hu Hn Hp Hlogin)
    as Hstored.
  subst unload. fold hs1 in Hstored.
  cbv [async_unload_entry hbind hret call pop_hub].
  rewrite Hstored, lookup_insert_eq.
  cbn [fst snd app domain_data objects].
  rewrite delete_insert_id by exact Hfresh. auto.
Qed.

(** X24: after a setup whose login raised, the entry's id is not in
    [hass.data] (when it was not before), and unloading the entry raises
    [KeyError] once the platforms are unloaded. *)
Theorem unload_after_failed_login_raises replies h entry hs u n p e :
  Py.getitem (entry_data entry) "url" = Ok u ->
  Py.getitem (entry_data entry) "username" = Ok n ->
  Py.getitem (entry_data entry) "password" = Ok p ->
  simple_login replies = Raise e ->
  default ∅ (domain_data hs) !! entry_id entry = None ->
  let hs1 := (async_setup_entry DOMAIN replies h entry hs).1.1 in
  async_unload_entry DOMAIN (Ok true) entry hs1 =
    (hs1, [AsyncUnloadPlatforms (entry_id entry) PLATFORMS],
     Raise (KeyError (PStr (entry_id entry)))).
Proof.
  intros Hu Hn Hp Hlogin Hfresh hs1.
  assert (Hdata : domain_data hs1 = Some (default ∅ (domain_data hs))).
  { subst hs1. run_setup Hu Hn Hp. rewrite Hlogin. reflexivity. }
  cbv [async_unload_entry hbind hret call pop_hub].
  rewrite Hdata, Hfresh. reflexivity.
Qed.

(** X25: unloading an entry writes no hub object and leaves every other
    entry of [hass.data] in place; when the platforms are not unloaded
    ([False], or an exception) it changes nothing at all and hands that
    outcome on. *)
Theorem unload_touches_this_entry_only unload_platforms entry hs :
  let unload := async_unload_entry DOMAIN unload_platforms entry hs in
  objects unload.1.1 = objects hs /\
  (forall other d,
      other <> entry_id entry ->
      domain_data hs = Some d ->
      exists d', domain_data unload.1.1 = Some d' /\ d' !! other = d !! other) /\
  (unload_platforms <> Ok true -> unload.1.1 = hs /\ unload.2 = unload_platforms).
Proof.
  intros unload. subst unload.
  cbv [async_unload_entry hbind hret call pop_hub].
  destruct unload_platforms as [[|]|e].
  - destruct (domain_data hs) as [d|] eqn:Hd.
    + destruct (d !! entry_id entry) as [hub|] eqn:Hhub; cbn [fst snd objects domain_data].
      * repeat split; [|congruence].
        intros other d0 Hother [= <-]. exists (delete (entry_id entry) d).
        split; [reflexivity|]. apply lookup_delete_ne. congruence.
      * repeat split; [|congruence].
        intros other d0 Hother Hd0. exists d. split; congruence.
    + cbn [fst snd]. repeat split; [|congruence].
      intros other d0 _ Hd0. congruence.
  - cbn [fst snd]. repeat split; eauto.
  - cbn [fst snd]. repeat split; eauto.
Qed.

End HostProperties.

(** * Runs on the small installation *)

Section Runs.

Local Abbreviation handle_one := (handle_one overwrite_values).
Local Abbreviation handle_events := (handle_events overwrite_values).
Local Abbreviation handle_event := (handle_event overwrite_values).
Local Abbreviation poll := (_async_update_data overwrite_values).

(** C1, as stated, fails: the first batch raises while it is handled (the
    switch time is [null]); the run ends with [UpdateFailed], only the
    exception is logged, and the press in the second batch is never fired,
    though handled on its own it is. *)
Lemma poll_loop_ends_on_handler_exception :
  poll [Events (batch [release_without_time]); Events (batch [press_down])] home =
    (home,
     [LogException "Failed to handle event: %s (%s)" (batch [release_without_time]) TypeError],
     UpdateFailed TypeError) /\
  poll [Events (batch [press_down])] home = (home, [fired "initial_press" 4], Polling).
Proof. split; vm_compute; reflexivity. Qed.

(** C2, as stated, fails: with the value types spelled "rocker state" and
    "rocker switch time" the press on channel 3 is fired with subtype 3,
    not 4. *)
Lemma spelled_out_press_has_subtype_3 :
  handle_one press_down_spelled_out home = (home, [fired "initial_press" 3], Ok tt) /\
  fired "initial_press" 3 <> fired "initial_press" 4.
Proof. split; [vm_compute; reflexivity | discriminate]. Qed.

(** C3, as stated, fails: with the value types spelled "rocker state" and
    "rocker switch time" the release after 550 is fired as "initial_press",
    not "short_release". *)
Lemma spelled_out_release_is_initial_press :
  handle_one release_up_spelled_out home = (home, [fired "initial_press" 3], Ok tt) /\
  fired "initial_press" 3 <> fired "short_release" 3.
Proof. split; [vm_compute; reflexivity | discriminate]. Qed.

(** The lamp is switched, then a batch whose second event raises: the press
    before it stays fired, and the release in the batch after it is not
    consumed. *)
Lemma handler_exception_ends_the_run_witness :
  poll ([Events (batch [lamp_on])] ++
        Events (batch [press_down; release_without_time]) :: [Events (batch [release_up])]) home =
  ((poll [Events (batch [lamp_on])] home).1.1,
   [UpdateValues lamp (PStr "fn-lamp") (PList [value_entry "VT_SWITCH" (PBool true)]);
    AsyncUpdateListeners] ++
   [fired "initial_press" 4] ++
   [LogException "Failed to handle event: %s (%s)"
      (batch [press_down; release_without_time]) TypeError],
   UpdateFailed TypeError).
Proof.
  eapply (handler_exception_ends_the_run overwrite_values
            [Events (batch [lamp_on])] (batch [press_down; release_without_time])
            [Events (batch [release_up])] home).
  - vm_compute. reflexivity.
  - vm_compute. reflexivity.
  - vm_compute. reflexivity.
Defined.

(** The press of the rocker of the wall switch. *)
Lemma rocker_down_press_decoding_witness :
  handle_one press_down home = (home, [fired "initial_press" 4], Ok tt).
Proof.
  eapply (rocker_down_press_decoding overwrite_values press_down _ (PStr "fn-rocker") rocker home).
  - repeat split; reflexivity.
  - vm_compute. reflexivity.
  - reflexivity.
  - reflexivity.
  - reflexivity.
Defined.

(** The release of the rocker of the wall switch. *)
Lemma rocker_up_release_decoding_witness :
  handle_one release_up home = (home, [fired "short_release" 3], Ok tt).
Proof.
  eapply (rocker_up_release_decoding overwrite_values release_up _ (PStr "fn-rocker") rocker home).
  - repeat split; reflexivity.
  - vm_compute. reflexivity.
  - reflexivity.
  - reflexivity.
  - reflexivity.
Defined.

(** Three values for the rocker. *)
Lemma malformed_button_payload_is_skipped_witness :
  handle_one three_values home =
    (home, [LogWarning "Expected 2 values: %s" three_values], Ok tt) /\
  forall rest,
    handle_events (three_values :: rest) home =
    let '(st', t, r) := handle_events rest home in
    (st', LogWarning "Expected 2 values: %s" three_values :: t, r).
Proof.
  eapply (malformed_button_payload_is_skipped overwrite_values three_values _
            (PStr "fn-rocker") rocker _ (PInt 3) home).
  - repeat split; reflexivity.
  - vm_compute. reflexivity.
  - reflexivity.
  - reflexivity.
  - reflexivity.
  - cbn. lia.
Defined.

(** A function UID that is not in the registry of the installation. *)
Lemma unmapped_function_uid_is_skipped_witness :
  handle_one unknown_function home =
    (home, [LogWarning "Function %s does not map to device" (PStr "fn-gone")], Ok tt) /\
  forall rest,
    handle_events (unknown_function :: rest) home =
    let '(st', t, r) := handle_events rest home in
    (st', LogWarning "Function %s does not map to device" (PStr "fn-gone") :: t, r).
Proof.
  eapply (unmapped_function_uid_is_skipped overwrite_values unknown_function _
            (PStr "fn-gone") home).
  - repeat split; reflexivity.
  - vm_compute. reflexivity.
Defined.

(** A batch that mixes button events, a lamp update and a malformed event. *)
Lemma discrete_events_keep_batch_order_witness :
  bus_events (handle_event (batch [press_down; lamp_on; one_value; release_up]) home).1.2 =
  flat_map (fun event => bus_events (handle_one event home).1.2)
    [press_down; lamp_on; one_value; release_up].
Proof.
  eapply (discrete_events_keep_batch_order overwrite_values
            (batch [press_down; lamp_on; one_value; release_up]) _ _ home).
  - reflexivity.
  - reflexivity.
  - vm_compute. reflexivity.
  - reflexivity.
Defined.

(** Two devices declare "fn-rocker": the later one wins. *)
Lemma registry_lookup_after_setup_witness :
  dict_get
    (function_uid_map
       (setup_event_listeners (cache := option (pyval * pyval))
          [switch_device; lamp_device; rewired_device] (init (fun _ => None))).1.1)
    (PStr "fn-rocker") = Ok (Some rocker_b).
Proof.
  eapply (registry_lookup_after_setup [switch_device; lamp_device; rewired_device]
            (fun _ => None) _ _).
  - vm_compute. reflexivity.
  - instantiate (1 := []). instantiate (1 := rewired_device).
    instantiate (1 := [switch_device; lamp_device]). reflexivity.
  - vm_compute. reflexivity.
  - intros d' [].
Defined.

(** The press leaves the installation as it was. *)
Lemma button_event_leaves_state_alone_witness :
  home = home /\ [fired "initial_press" 4] = [fired "initial_press" 4] /\
  Ok tt = Ok tt :> result unit.
Proof.
  apply (button_event_leaves_state_alone overwrite_values press_down home home
           [fired "initial_press" 4] (Ok tt) "enet_event"
           {| bd_device_id := "entry-7"; bd_unique_id := "dev-switch";
              bd_type := "initial_press"; bd_subtype := PInt 4 |}).
  - vm_compute. reflexivity.
  - left. reflexivity.
Defined.

(** The release keeps the channel number 3. *)
Lemma subtype_is_channel_number_witness :
  (forall name b, In (BusAsyncFire name b) [fired "short_release" 3] -> bd_subtype b = PInt 3) /\
  (forall ch,
      dict_get (function_uid_map home) (PStr "fn-rocker") = Ok (Some ch) ->
      ch_kind ch = EventChannel ->
      Ok tt = Ok tt ->
      exists event_type,
        [fired "short_release" 3] =
        [BusAsyncFire EVENT_ENET
           {| bd_device_id := hass_device_entry_id (device ch);
              bd_unique_id := uid (device ch);
              bd_type := event_type;
              bd_subtype := PInt 3 |}]).
Proof.
  eapply (subtype_is_channel_number overwrite_values release_up _ (PStr "fn-rocker")
            _ _ (PInt 3) home home [fired "short_release" 3] (Ok tt)).
  - repeat split; reflexivity.
  - reflexivity.
  - reflexivity.
  - reflexivity.
  - vm_compute. reflexivity.
Defined.

(** One value for the lamp. *)
Lemma stateful_channel_receives_any_values_witness :
  handle_one lamp_on home =
  ({| function_uid_map := function_uid_map home;
      heap := fun i =>
        if Nat.eqb i 2
        then Some (PStr "fn-lamp", PList [value_entry "VT_SWITCH" (PBool true)])
        else heap home i |},
   [UpdateValues lamp (PStr "fn-lamp") (PList [value_entry "VT_SWITCH" (PBool true)]);
    AsyncUpdateListeners],
   Ok tt).
Proof.
  eapply (stateful_channel_receives_any_values overwrite_values lamp_on _
            (PStr "fn-lamp") lamp _ home).
  - repeat split; reflexivity.
  - vm_compute. reflexivity.
  - reflexivity.
  - reflexivity.
Defined.

(** The installation's registry maps no function UID to a stateful channel
    with the identity of the rocker. *)
Lemma rocker_is_not_registered_stateful : ~ registered_stateful (function_uid_map home) 1.
Proof.
  intros (u & ch & Hu & Hst & Hid). cbn [home function_uid_map] in Hu.
  apply lookup_union_Some_raw in Hu as [Hu|[_ Hu]];
    apply lookup_singleton_Some in Hu as [_ <-]; discriminate.
Qed.

(** The lamp is switched and the rocker pressed: the object 1 is not written. *)
Lemma poll_writes_registered_stateful_channels_only_witness :
  heap (poll [Events (batch [lamp_on]); Events (batch [press_down])] home).1.1 1 = heap home 1.
Proof.
  apply (poll_writes_registered_stateful_channels_only overwrite_values
           [Events (batch [lamp_on]); Events (batch [press_down])] 1 home).
  exact rocker_is_not_registered_stateful.
Defined.

(** Two events of another kind. *)
Lemma other_kinds_of_event_are_ignored_witness :
  handle_event (PDict [("events", PList [device_added; device_added])]) home = (home, [], Ok tt).
Proof.
  apply (other_kinds_of_event_are_ignored overwrite_values [device_added; device_added] home).
  repeat constructor; exists (PStr "deviceAdded"); split; reflexivity.
Defined.

(** A press is handled, then the connection to the hub fails. *)
Lemma get_events_exception_propagates_witness :
  poll ([Events (batch [press_down])] ++
        GetEventsRaises (OtherException "ClientError") :: [Events (batch [release_up])]) home =
  (home, [fired "initial_press" 4], Propagated (OtherException "ClientError")).
Proof.
  apply (get_events_exception_propagates overwrite_values [Events (batch [press_down])]
           (OtherException "ClientError") [Events (batch [release_up])] home home
           [fired "initial_press" 4]).
  vm_compute. reflexivity.
Defined.


(** The lamp is switched and the rocker pressed in one batch. *)
Lemma every_update_is_notified_witness :
  notifications
    [UpdateValues lamp (PStr "fn-lamp") (PList [value_entry "VT_SWITCH" (PBool true)]);
     AsyncUpdateListeners; fired "initial_press" 4] =
  updates
    [UpdateValues lamp (PStr "fn-lamp") (PList [value_entry "VT_SWITCH" (PBool true)]);
     AsyncUpdateListeners; fired "initial_press" 4].
Proof.
  apply (every_update_is_notified overwrite_values (batch [lamp_on; press_down]) home
           (handle_event (batch [lamp_on; press_down]) home).1.1 _ (Ok tt)).
  vm_compute. reflexivity.
Defined.

(** A press, a release that raises, a release that is not looked at. *)
Lemma exception_ends_the_batch_witness :
  handle_event
    (PDict [("events", PList ([press_down] ++ release_without_time :: [release_up]))]) home =
  (home, [fired "initial_press" 4] ++ [], Raise TypeError).
Proof.
  apply (exception_ends_the_batch overwrite_values [press_down] release_without_time
           [release_up] home home [fired "initial_press" 4] home [] TypeError).
  - vm_compute. reflexivity.
  - vm_compute. reflexivity.
Defined.

(** Where the press of the rocker comes from. *)
Lemma discrete_event_comes_from_button_event_witness :
  exists data u ch v0 v1 subtype,
    function_called_event press_down data (PStr u) /\
    function_uid_map home !! u = Some ch /\
    ch_kind ch = EventChannel /\
    Py.getitem data "values" = Ok (PList [v0; v1]) /\
    Py.getitem data "channelNumber" = Ok subtype /\
    "enet_event" = EVENT_ENET /\
    "entry-7" = hass_device_entry_id (device ch) /\
    "dev-switch" = uid (device ch) /\
    ("initial_press" = EVENT_TYPE_INITIAL_PRESS \/
     "initial_press" = EVENT_TYPE_SHORT_RELEASE) /\
    (PInt 4 = subtype \/ Py.add_one subtype = Ok (PInt 4)).
Proof.
  apply (discrete_event_comes_from_button_event overwrite_values press_down home home
           [fired "initial_press" 4] (Ok tt) "enet_event"
           {| bd_device_id := "entry-7"; bd_unique_id := "dev-switch";
              bd_type := "initial_press"; bd_subtype := PInt 4 |}).
  - vm_compute. reflexivity.
  - left. reflexivity.
Defined.

(** The rocker pressed down on channel 3. *)
Lemma rocker_down_adds_one_witness :
  home = home /\
  exists event_type,
    [fired "initial_press" 4] =
    [BusAsyncFire EVENT_ENET
       {| bd_device_id := hass_device_entry_id (device rocker);
          bd_unique_id := uid (device rocker);
          bd_type := event_type;
          bd_subtype := PInt (3 + 1) |}].
Proof.
  eapply (rocker_down_adds_one overwrite_values press_down _ (PStr "fn-rocker") rocker
            _ _ 3 home home [fired "initial_press" 4] (Ok tt)).
  - repeat split; reflexivity.
  - vm_compute. reflexivity.
  - reflexivity.
  - reflexivity.
  - reflexivity.
  - reflexivity.
  - vm_compute. reflexivity.
Defined.

(** The rocker pressed down on the channel "3". *)
Lemma rocker_down_needs_a_number_witness :
  handle_one press_down_on_string_channel home = (home, [], Raise TypeError).
Proof.
  eapply (rocker_down_needs_a_number overwrite_values press_down_on_string_channel _
            (PStr "fn-rocker") rocker _ _ (PStr "3") home).
  - repeat split; reflexivity.
  - vm_compute. reflexivity.
  - reflexivity.
  - reflexivity.
  - reflexivity.
  - reflexivity.
  - discriminate.
  - discriminate.
  - discriminate.
Defined.

(** The rocker released after 550. *)
Lemma switch_time_decides_the_type_witness :
  exists subtype',
    [fired "short_release" 3] =
    [BusAsyncFire EVENT_ENET
       {| bd_device_id := hass_device_entry_id (device rocker);
          bd_unique_id := uid (device rocker);
          bd_type := if (0 <? 550)%Z then EVENT_TYPE_SHORT_RELEASE
                     else EVENT_TYPE_INITIAL_PRESS;
          bd_subtype := subtype' |}].
Proof.
  eapply (switch_time_decides_the_type overwrite_values release_up _ (PStr "fn-rocker") rocker
            _ _ (PInt 3) (PStr "VT_ROCKER_SWITCH_TIME") 550 home home).
  - repeat split; reflexivity.
  - vm_compute. reflexivity.
  - reflexivity.
  - reflexivity.
  - reflexivity.
  - reflexivity.
  - reflexivity.
  - reflexivity.
  - vm_compute. reflexivity.
Defined.

(** A second value that is no switch time and has no value. *)
Lemma without_switch_time_it_is_a_press_witness :
  exists subtype',
    [fired "initial_press" 3] =
    [BusAsyncFire EVENT_ENET
       {| bd_device_id := hass_device_entry_id (device rocker);
          bd_unique_id := uid (device rocker);
          bd_type := EVENT_TYPE_INITIAL_PRESS;
          bd_subtype := subtype' |}].
Proof.
  eapply (without_switch_time_it_is_a_press overwrite_values press_without_switch_time _
            (PStr "fn-rocker") rocker _ _ (PInt 3) (PStr "VT_SCENE") home home).
  - repeat split; reflexivity.
  - vm_compute. reflexivity.
  - reflexivity.
  - reflexivity.
  - reflexivity.
  - reflexivity.
  - reflexivity.
  - vm_compute. reflexivity.
Defined.

(** The two devices of the installation are subscribed in order. *)
Lemma setup_subscribes_every_device_witness :
  exists st',
    setup_event_listeners [switch_device; lamp_device] home =
      (st', [RegisterEvents wall_switch; RegisterEvents ceiling_lamp], Ok tt) /\
    heap st' = heap home.
Proof.
  apply (setup_subscribes_every_device [switch_device; lamp_device] home).
  repeat constructor.
Defined.

(** The second of three devices cannot be subscribed. *)
Lemma setup_stops_at_the_first_failure_witness :
  exists st1,
    setup_event_listeners [switch_device] home =
      (st1, [RegisterEvents wall_switch], Ok tt) /\
    setup_event_listeners ([switch_device] ++ unreachable_device :: [lamp_device]) home =
      ({| function_uid_map := {[ "fn-blind" := rocker_b ]} ∪ function_uid_map st1;
          heap := heap st1 |},
       [RegisterEvents wall_switch; RegisterEvents ceiling_lamp],
       Raise (OtherException "ClientError")).
Proof.
  apply (setup_stops_at_the_first_failure [switch_device] unreachable_device [lamp_device]
           (OtherException "ClientError") home).
  - repeat constructor.
  - reflexivity.
Defined.

(** The lamp stays in the registry when the rewired device is set up. *)
Lemma setup_only_adds_function_uids_witness :
  is_Some (function_uid_map (setup_event_listeners [rewired_device] home).1.1 !! "fn-lamp").
Proof.
  apply (setup_only_adds_function_uids [rewired_device] home "fn-lamp").
  exists lamp. vm_compute. reflexivity.
Defined.

(** The hub refuses the login. *)
Lemma login_failure_is_reported_witness :
  (async_setup_entry "enet" login_refused (fun _ => None) home_entry fresh_host).2 = Ok false /\
  (async_setup_entry "enet" login_refused (fun _ => None) home_entry fresh_host).1.2 =
    [SimpleLogin 0;
     LogError "Failed to login to Enet Smart Home: %s" (OtherException "ClientError")] /\
  domain_data (async_setup_entry "enet" login_refused (fun _ => None) home_entry fresh_host).1.1 =
    Some (default ∅ None).
Proof.
  apply (login_failure_is_reported "enet" login_refused (fun _ => None) home_entry fresh_host
           (PStr "http://enet.local") (PStr "admin") (PStr "secret")
           (OtherException "ClientError")); reflexivity.
Defined.

(** The hub accepts the login and fails to list the devices. *)
Lemma get_devices_failure_is_reported_witness :
  (async_setup_entry "enet" devices_unavailable (fun _ => None) home_entry fresh_host).2 =
    Ok false /\
  (async_setup_entry "enet" devices_unavailable (fun _ => None) home_entry fresh_host).1.2 =
    [SimpleLogin 0; GetDevices 0;
     LogError "Failed to get devices from Enet Smart Home: %s" (OtherException "ClientError")].
Proof.
  apply (get_devices_failure_is_reported "enet" devices_unavailable (fun _ => None) home_entry
           fresh_host (PStr "http://enet.local") (PStr "admin") (PStr "secret")
           (OtherException "ClientError")); reflexivity.
Defined.

(** The hub that failed to list the devices is in [hass.data] all the same. *)
Lemma hub_is_stored_once_logged_in_witness :
  domain_data
    (async_setup_entry "enet" devices_unavailable (fun _ => None) home_entry fresh_host).1.1 =
  Some (<["entry-home" := 0]> (default ∅ None)).
Proof.
  apply (hub_is_stored_once_logged_in "enet" devices_unavailable (fun _ => None) home_entry
           fresh_host (PStr "http://enet.local") (PStr "admin") (PStr "secret")); reflexivity.
Defined.

(** The installation is set up. *)
Lemma setup_runs_to_the_poll_task_witness :
  let run := async_setup_entry "enet" all_is_well (fun _ => None) home_entry fresh_host in
  let hub := next_object fresh_host in
  run.2 = Ok true /\
  run.1.2 =
    [SimpleLogin hub; GetDevices hub;
     AsyncForwardEntrySetups (entry_id home_entry) PLATFORMS] ++
    List.map (fun d => OfCoordinator hub (RegisterEvents (dev_ref d)))
      [switch_device; lamp_device] ++
    [AsyncSetupDevices hub; CreateTaskAsyncRefresh hub] /\
  devices (objects run.1.1 hub) = Some [switch_device; lamp_device] /\
  coordinator (objects run.1.1 hub) =
    (setup_event_listeners [switch_device; lamp_device] (init (fun _ => None))).1.1 /\
  (forall i, i <> hub -> objects run.1.1 i = objects fresh_host i).
Proof.
  apply (setup_runs_to_the_poll_task "enet" all_is_well (fun _ => None) home_entry fresh_host
           (PStr "http://enet.local") (PStr "admin") (PStr "secret")
           [switch_device; lamp_device]); try reflexivity.
  repeat constructor.
Defined.

(** The installation is set up and unloaded again. *)
Lemma unload_undoes_setup_witness :
  let hs1 := (async_setup_entry "enet" all_is_well (fun _ => None) home_entry fresh_host).1.1 in
  let unload := async_unload_entry "enet" (Ok true) home_entry hs1 in
  unload.2 = Ok true /\
  unload.1.2 = [AsyncUnloadPlatforms (entry_id home_entry) PLATFORMS] /\
  domain_data unload.1.1 = Some (default ∅ (domain_data fresh_host)) /\
  objects unload.1.1 = objects hs1.
Proof.
  apply (unload_undoes_setup "enet" all_is_well (fun _ => None) home_entry fresh_host
           (PStr "http://enet.local") (PStr "admin") (PStr "secret")); reflexivity.
Defined.

(** The hub refused the login, and the entry is unloaded. *)
Lemma unload_after_failed_login_raises_witness :
  let hs1 :=
    (async_setup_entry "enet" login_refused (fun _ => None) home_entry fresh_host).1.1 in
  async_unload_entry "enet" (Ok true) home_entry hs1 =
    (hs1, [AsyncUnloadPlatforms (entry_id home_entry) PLATFORMS],
     Raise (KeyError (PStr (entry_id home_entry)))).
Proof.
  apply (unload_after_failed_login_raises "enet" login_refused (fun _ => None) home_entry
           fresh_host (PStr "http://enet.local") (PStr "admin") (PStr "secret")
           (OtherException "ClientError")); reflexivity.
Defined.

End Runs.
